(** * cpu-freqency.c: a per-core CPU frequency probe

    A shallow embedding of the kernel module [cpu-freqency/cpu-freqency.c]
    and the properties of its sampling / formatting pipeline.

    Conventions of the embedding:
    - [unsigned int] and [uint64_t] values are integers in [Z]; conversions
      and arithmetic carry their wrap-around ([mod 2^32], [mod 2^64]);
    - logical CPU numbers, which the code only uses as loop counters and
      array subscripts below [NR_CPUS], are [nat];
    - C arrays are lists read with [!!] and written with [<[ i := v ]>];
      a subscript outside the allocation is undefined behaviour in C and is
      a [Fault] here, tagged with the array that was overrun;
    - the kernel services the module consumes (online mask, topology,
      MSR read, allocator outcome) are parameters. *)

From Stdlib Require Import ZArith List String Ascii Bool Lia.
From Stdlib Require Import Decimal DecimalFacts DecimalString DecimalN DecimalPos Sorted.
From stdpp Require Import base list.

Import ListNotations.

(** ** Faults and the error monad *)

Inductive fault : Type :=
  | ScratchOutOfBounds   (* first_thread_per_core[i] with i outside the allocation *)
  | StoreOutOfBounds     (* cpu_freqs[i] with i outside the allocation *)
  | BufferOverrun        (* sprintf stores a byte past the end of cpu_freq_data *)
  | UnterminatedBuffer.  (* strlen runs off the end of cpu_freq_data *)

Inductive result (A : Type) : Type :=
  | Ok (a : A)
  | Fault (f : fault).

Arguments Ok {A} a.
Arguments Fault {A} f.

Definition bind {A B : Type} (r : result A) (k : A -> result B) : result B :=
  match r with
  | Ok a => k a
  | Fault f => Fault f
  end.

Notation "x <- r ;; k" := (bind r (fun x => k))
  (at level 100, r at next level, right associativity).

(** [for_each body cpus s] runs [body] on every element of [cpus] in order,
    threading the state and stopping at the first fault. *)
Fixpoint for_each {S : Type} (body : nat -> S -> result S)
    (cpus : list nat) (s : S) : result S :=
  match cpus with
  | [] => Ok s
  | cpu :: rest => s' <- body cpu s ;; for_each body rest s'
  end.

(** ** Data model *)

(** [struct cpu_freq_info], three [unsigned int] fields. *)
Record cpu_freq_info : Type := mk_cpu_freq_info {
  cur_freq : Z;
  max : Z;
  min : Z
}.

Definition set_cur_freq (r : cpu_freq_info) (v : Z) : cpu_freq_info :=
  {| cur_freq := v; max := max r; min := min r |}.
Definition set_max (r : cpu_freq_info) (v : Z) : cpu_freq_info :=
  {| cur_freq := cur_freq r; max := v; min := min r |}.
Definition set_min (r : cpu_freq_info) (v : Z) : cpu_freq_info :=
  {| cur_freq := cur_freq r; max := max r; min := v |}.

Definition UINT_MOD : Z := 2 ^ 32.
Definition U64_MOD : Z := 2 ^ 64.

(** Lines 64-67: [freq = (msr_value >> 8) & 0xff; freq *= 100;] with
    [msr_value] a [uint64_t] and [freq] an [unsigned int]. *)
Definition freq_of_msr (msr_value : Z) : Z :=
  let msr_value := (msr_value mod U64_MOD)%Z in
  let freq := (Z.land (Z.shiftr msr_value 8) 255 mod UINT_MOD)%Z in
  ((freq * 100) mod UINT_MOD)%Z.

(** Lines 70-78: the three stores into [cpu_freqs[cpu]]. *)
Definition update_slot (r : cpu_freq_info) (freq : Z) : cpu_freq_info :=
  let r := set_cur_freq r freq in
  let r := if (freq >? max r)%Z then set_max r freq else r in
  let r := if (freq <? min r)%Z || (min r =? 0)%Z then set_min r freq else r in
  r.

(** Array accesses. *)
Definition scratch_get (a : list nat) (i : nat) : result nat :=
  match a !! i with
  | Some v => Ok v
  | None => Fault ScratchOutOfBounds
  end.

Definition scratch_set (a : list nat) (i v : nat) : result (list nat) :=
  if decide (i < length a) then Ok (<[ i := v ]> a) else Fault ScratchOutOfBounds.

Definition store_get (a : list cpu_freq_info) (i : nat) : result cpu_freq_info :=
  match a !! i with
  | Some v => Ok v
  | None => Fault StoreOutOfBounds
  end.

(** [%u] applied to an [unsigned int]. *)
Definition fmt_u (v : Z) : string :=
  NilEmpty.string_of_uint (N.to_uint (Z.to_N (v mod UINT_MOD))).

Definition newline : string := String (ascii_of_nat 10) EmptyString.

Definition NUL : ascii := Ascii.zero.

(** [static char cpu_freq_data[4096]]: static storage starts zeroed. *)
Definition CPU_FREQ_DATA_SIZE : nat := 4096.
Definition cpu_freq_data_init : list ascii := replicate CPU_FREQ_DATA_SIZE NUL.

(** [sprintf(buf + ptr, ...)] where the rendered text is [s]: stores the
    bytes of [s] and a terminating NUL, returns the length of [s].  A store
    beyond the array is the [BufferOverrun] fault. *)
Definition sprintf (buf : list ascii) (ptr : nat) (s : string)
    : result (list ascii * nat) :=
  let bytes := list_ascii_of_string s ++ [NUL] in
  if decide (ptr + length bytes <= length buf)
  then Ok (take ptr buf ++ bytes ++ drop (ptr + length bytes) buf, String.length s)
  else Fault BufferOverrun.

(** [strlen(buf)]: the offset of the first NUL. *)
Fixpoint strlen (buf : list ascii) : result nat :=
  match buf with
  | [] => Fault UnterminatedBuffer
  | c :: rest => if Ascii.eqb c NUL then Ok 0 else n <- strlen rest ;; Ok (S n)
  end.

(** The text a reader of the buffer sees: the bytes before the first NUL. *)
Definition published (buf : list ascii) : result string :=
  n <- strlen buf ;; Ok (string_of_list_ascii (take n buf)).

(** The module's globals. *)
Record module_state : Type := {
  cpu_freqs : list cpu_freq_info;
  cpu_freq_data : list ascii
}.

Definition ENOMEM : Z := 12.
Definition EFAULT : Z := 14.
Definition EINVAL : Z := 22.

Inductive init_outcome : Type :=
  | InitFailed (err : Z)
  | Loaded (st : module_state).

(** The 8-bit field in bits 8-15 of a register value, as the specification
    words it. *)
Definition bits_8_15 (v : Z) : Z := ((v / 2 ^ 8) mod 2 ^ 8)%Z.

(** *** The read endpoint *)

(** What one [read] call hands back: the return value, the cursor as it is
    left in [*ppos], and the bytes that reached the caller's buffer. *)
Record read_outcome : Type := {
  ret : Z;
  new_pos : Z;
  delivered : list ascii
}.

(** Modelled from the spec: [simple_read_from_buffer] is the kernel's libfs
    helper, which the module calls and does not define.  It is the "byte-oriented
    read operation accepting a destination capacity and a position cursor,
    returning the number of bytes delivered (zero at end-of-report)", with
    "partial reads via an offset/length cursor"; its two error returns are
    those of the kernel's helper: a negative cursor, and a destination no byte
    could be copied to.  [copy_to_user n] is the number of bytes, out of [n],
    that could not be copied. *)
Definition simple_read_from_buffer (copy_to_user : Z -> Z) (count pos : Z)
    (from : list ascii) (available : Z) : read_outcome :=
  if (pos <? 0)%Z then {| ret := - EINVAL; new_pos := pos; delivered := [] |}
  else if (pos >=? available)%Z || (count =? 0)%Z
  then {| ret := 0; new_pos := pos; delivered := [] |}
  else
    let count := if (count >? available - pos)%Z then (available - pos)%Z else count in
    let uncopied := copy_to_user count in
    if (uncopied =? count)%Z then {| ret := - EFAULT; new_pos := pos; delivered := [] |}
    else
      let count := (count - uncopied)%Z in
      {| ret := count; new_pos := (pos + count)%Z;
         delivered := take (Z.to_nat count) (drop (Z.to_nat pos) from) |}.

(** [proc_read]: line 134. *)
Definition proc_read (copy_to_user : Z -> Z) (count ppos : Z)
    (cpu_freq_data : list ascii) : result read_outcome :=
  len <- strlen cpu_freq_data ;;
  Ok (simple_read_from_buffer copy_to_user count ppos cpu_freq_data (Z.of_nat len)).

(** *** Sample machines *)

Definition all_cpus : nat -> bool := fun _ => true.

(** Two hardware threads per core: CPUs 0,1,2,3 on cores 0,0,1,1. *)
Definition smt2_core_id (cpu : nat) : Z := Z.of_nat (cpu / 2).

(** One hardware thread per core, cores numbered like the CPUs. *)
Definition own_core_id (cpu : nat) : Z := Z.of_nat cpu.

(** Sparse core ids, four apart: CPUs 0,1,2,3 on cores 0,4,8,12. *)
Definition sparse_core_id (cpu : nat) : Z := Z.of_nat (4 * cpu).

(** A register read whose bits 8-15 hold [ratio] on every CPU. *)
Definition msr_ratio (ratio : Z) : nat -> Z := fun _ => Z.shiftl ratio 8.

Definition zero_slot : cpu_freq_info := mk_cpu_freq_info 0 0 0.

Definition snapshot_store : list cpu_freq_info :=
  [mk_cpu_freq_info 2500 3400 1200; zero_slot;
   mk_cpu_freq_info 1800 1800 1800; zero_slot].

(** Two records as [kmalloc_array] may hand them out: left-over bytes. *)
Definition stale_heap : list cpu_freq_info :=
  [mk_cpu_freq_info 3735928559 4294967295 7; mk_cpu_freq_info 1 2 3].

(** A mask with CPU 0 only: a configuration built for more CPUs than the
    machine can ever have. *)
Definition only_cpu0 : nat -> bool := fun cpu => cpu =? 0.

Section Probe.

(** Kernel configuration and services. *)
Variable NR_CPUS : nat.                (* CONFIG_NR_CPUS *)
Variable cpu_online : nat -> bool.     (* bit test on cpu_online_mask *)
Variable topology_core_id : nat -> Z.  (* an int *)
Variable rdmsrl_on_cpu : nat -> Z.     (* MSR_IA32_PERF_STATUS as read on a cpu *)

(** [for_each_online_cpu(cpu)]: the set bits of the mask, ascending. *)
Definition online_cpus : list nat := List.filter cpu_online (seq 0 NR_CPUS).

(** [unsigned int core_id = topology_core_id(cpu);] *)
Definition core_id_of (cpu : nat) : nat :=
  Z.to_nat (topology_core_id cpu mod UINT_MOD).

(** Lines 34-43 and 92-101: the scratch array once allocated and filled. *)
Definition first_thread_per_core_init : list nat := replicate NR_CPUS NR_CPUS.

(** Lines 48-58 and 104-114: claim the core for [cpu] when it is still
    unclaimed, then test whether [cpu] is the one recorded for it.  The
    boolean is [true] when the loop body goes on, [false] on [continue]. *)
Definition mark_first_thread (first_thread_per_core : list nat) (cpu : nat)
    : result (list nat * bool) :=
  let core_id := core_id_of cpu in
  seen <- scratch_get first_thread_per_core core_id ;;
  first_thread_per_core <-
    (if seen =? NR_CPUS then scratch_set first_thread_per_core core_id cpu
     else Ok first_thread_per_core) ;;
  first <- scratch_get first_thread_per_core core_id ;;
  Ok (first_thread_per_core, cpu =? first).

(** Lines 45-79: one iteration of the sampling loop. *)
Definition sample_cpu (cpu : nat) (s : list nat * list cpu_freq_info)
    : result (list nat * list cpu_freq_info) :=
  let '(first_thread_per_core, cpu_freqs) := s in
  marked <- mark_first_thread first_thread_per_core cpu ;;
  let '(first_thread_per_core, is_first) := marked in
  if negb is_first then Ok (first_thread_per_core, cpu_freqs)
  else
    let freq := freq_of_msr (rdmsrl_on_cpu cpu) in
    slot <- store_get cpu_freqs cpu ;;
    Ok (first_thread_per_core, <[ cpu := update_slot slot freq ]> cpu_freqs).

(** The loop of [read_cpu_frequencies], with the scratch array it leaves. *)
Definition sampler_loop (cpu_freqs : list cpu_freq_info)
    : result (list nat * list cpu_freq_info) :=
  for_each sample_cpu online_cpus (first_thread_per_core_init, cpu_freqs).

(** [read_cpu_frequencies]; [kmalloc_ok] is whether [kmalloc_array]
    returned memory.  The scratch array is freed on return. *)
Definition read_cpu_frequencies (kmalloc_ok : bool)
    (cpu_freqs : list cpu_freq_info) : result (list cpu_freq_info) :=
  if negb kmalloc_ok then Ok cpu_freqs
  else s <- sampler_loop cpu_freqs ;; Ok (snd s).

(** *** The report buffer *)

(** [sprintf]'s rendering of the format of line 116. *)
Definition format_line (cpu : nat) (r : cpu_freq_info) : string :=
  ("CPU " ++ fmt_u (Z.of_nat cpu) ++
   " Frequency: " ++ fmt_u (cur_freq r) ++
   " MHz, Max: " ++ fmt_u (max r) ++
   " MHz, Min: " ++ fmt_u (min r) ++ " MHz" ++ newline)%string.

(** Lines 103-119: one iteration of the formatting loop; [ptr] is the
    offset of the write cursor in [cpu_freq_data]. *)
Definition format_cpu (cpu_freqs : list cpu_freq_info) (cpu : nat)
    (s : list nat * (list ascii * nat)) : result (list nat * (list ascii * nat)) :=
  let '(first_thread_per_core, (cpu_freq_data, ptr)) := s in
  marked <- mark_first_thread first_thread_per_core cpu ;;
  let '(first_thread_per_core, is_first) := marked in
  if negb is_first then Ok (first_thread_per_core, (cpu_freq_data, ptr))
  else
    slot <- store_get cpu_freqs cpu ;;
    written <- sprintf cpu_freq_data ptr (format_line cpu slot) ;;
    let '(cpu_freq_data, len) := written in
    Ok (first_thread_per_core, (cpu_freq_data, ptr + len)).

(** The loop of [update_cpu_freq_data], with the scratch array it leaves. *)
Definition formatter_loop (cpu_freqs : list cpu_freq_info)
    (cpu_freq_data : list ascii) : result (list nat * (list ascii * nat)) :=
  for_each (format_cpu cpu_freqs) online_cpus
    (first_thread_per_core_init, (cpu_freq_data, 0)).

(** [update_cpu_freq_data]: the buffer after the pass. *)
Definition update_cpu_freq_data (kmalloc_ok : bool)
    (cpu_freqs : list cpu_freq_info) (cpu_freq_data : list ascii)
    : result (list ascii) :=
  if negb kmalloc_ok then Ok cpu_freq_data
  else s <- formatter_loop cpu_freqs cpu_freq_data ;; Ok (fst (snd s)).

(** *** The module state and its life cycle *)

(** [my_timer_callback]: sample, then format.  Each of the two functions
    makes its own [kmalloc_array] call. *)
Definition my_timer_callback (kmalloc_ok1 kmalloc_ok2 : bool) (st : module_state)
    : result module_state :=
  freqs <- read_cpu_frequencies kmalloc_ok1 (cpu_freqs st) ;;
  data <- update_cpu_freq_data kmalloc_ok2 freqs (cpu_freq_data st) ;;
  Ok {| cpu_freqs := freqs; cpu_freq_data := data |}.

(** Lines 156-158: [for_each_possible_cpu(cpu) cpu_freqs[cpu].min = 0;] *)
Definition zero_min (cpu : nat) (cpu_freqs : list cpu_freq_info)
    : result (list cpu_freq_info) :=
  slot <- store_get cpu_freqs cpu ;;
  Ok (<[ cpu := set_min slot 0 ]> cpu_freqs).

Variable cpu_possible : nat -> bool.   (* bit test on cpu_possible_mask *)

Definition possible_cpus : list nat := List.filter cpu_possible (seq 0 NR_CPUS).

(** Lines 149-158: the store as it stands before the first refresh.
    [kmalloc_array] does not clear memory: [heap] is whatever the
    [NR_CPUS] records it hands out contain, [None] when it returns NULL. *)
Definition alloc_cpu_freqs (heap : option (list cpu_freq_info))
    : result (option (list cpu_freq_info)) :=
  match heap with
  | None => Ok None
  | Some cpu_freqs => freqs <- for_each zero_min possible_cpus cpu_freqs ;; Ok (Some freqs)
  end.

(** [my_module_init]. *)
Definition my_module_init (heap : option (list cpu_freq_info))
    (proc_create_ok kmalloc_ok1 kmalloc_ok2 : bool) : result init_outcome :=
  allocated <- alloc_cpu_freqs heap ;;
  match allocated with
  | None => Ok (InitFailed (- ENOMEM))
  | Some freqs =>
      if negb proc_create_ok then Ok (InitFailed (- ENOMEM))
      else
        st <- my_timer_callback kmalloc_ok1 kmalloc_ok2
                {| cpu_freqs := freqs; cpu_freq_data := cpu_freq_data_init |} ;;
        Ok (Loaded st)
  end.

(** *** Specification vocabulary *)

(** [cpu] is the lowest-numbered online CPU whose core id is [c]. *)
Definition lowest_online_of_core (cpu c : nat) : Prop :=
  cpu < NR_CPUS /\ cpu_online cpu = true /\ core_id_of cpu = c /\
  forall y, y < cpu -> cpu_online y = true -> core_id_of y <> c.

(** The same, decided, for the core of [cpu] itself. *)
Definition is_first_thread (cpu : nat) : bool :=
  cpu_online cpu &&
  forallb (fun y => negb (cpu_online y && (core_id_of y =? core_id_of cpu))) (seq 0 cpu).

(** The representative CPUs, ascending. *)
Definition first_threads : list nat := List.filter is_first_thread (seq 0 NR_CPUS).

(** Every online CPU has a core id that is a valid subscript of the
    scratch array. *)
Definition core_ids_in_range : Prop :=
  forall cpu, cpu < NR_CPUS -> cpu_online cpu = true -> core_id_of cpu < NR_CPUS.

(** One line per representative, in ascending CPU order. *)
Fixpoint report_lines (cpu_freqs : list cpu_freq_info) (cpus : list nat) : string :=
  match cpus with
  | [] => EmptyString
  | cpu :: rest =>
      (format_line cpu (default (mk_cpu_freq_info 0 0 0) (cpu_freqs !! cpu))
         ++ report_lines cpu_freqs rest)%string
  end.

(** The formatter ran to its end and a reader of the buffer sees one line
    per representative, ascending, and nothing else. *)
Definition formatter_correct (cpu_freqs : list cpu_freq_info)
    (cpu_freq_data : list ascii) : Prop :=
  exists data', update_cpu_freq_data true cpu_freqs cpu_freq_data = Ok data' /\
    published data' = Ok (report_lines cpu_freqs first_threads).

(** The sampling loop ran to its end and its scratch array holds, for
    every core with an online CPU, the lowest online CPU of that core, and
    the "none" mark [NR_CPUS] for the other cores. *)
Definition resolver_correct (cpu_freqs : list cpu_freq_info) : Prop :=
  exists t cpu_freqs', sampler_loop cpu_freqs = Ok (t, cpu_freqs') /\
    (forall cpu, cpu < NR_CPUS -> cpu_online cpu = true ->
       exists rep, t !! core_id_of cpu = Some rep /\
                   lowest_online_of_core rep (core_id_of cpu)) /\
    (forall c rep, t !! c = Some rep -> rep <> NR_CPUS -> lowest_online_of_core rep c) /\
    (forall c, c < NR_CPUS ->
       (forall cpu, cpu < NR_CPUS -> cpu_online cpu = true -> core_id_of cpu <> c) ->
       t !! c = Some NR_CPUS).

(** The slot invariant of the data model. *)
Definition slot_ok (r : cpu_freq_info) : Prop :=
  min r <> 0%Z -> (min r <= cur_freq r <= max r)%Z.

(** The module's globals have the sizes they were allocated with. *)
Definition module_state_wf (st : module_state) : Prop :=
  length (cpu_freqs st) = NR_CPUS /\ length (cpu_freq_data st) = CPU_FREQ_DATA_SIZE.

(** *** Bookkeeping for the two loops *)

(** First element of [l] on core [c]. *)
Definition first_of_core (l : list nat) (c : nat) : option nat :=
  List.find (fun cpu => core_id_of cpu =? c) l.

(** The scratch array after the CPUs of [l] went through
    [mark_first_thread]. *)
Definition table_of (l : list nat) : list nat :=
  map (fun c => default NR_CPUS (first_of_core l c)) (seq 0 NR_CPUS).

(** The CPUs of [l] that open a core not yet met in [p ++ ...]. *)
Fixpoint firsts_after (p l : list nat) : list nat :=
  match l with
  | [] => []
  | cpu :: rest =>
      (match first_of_core p (core_id_of cpu) with Some _ => [] | None => [cpu] end)
        ++ firsts_after (p ++ [cpu]) rest
  end.

(** [cpu] is the element of [l] that comes first on its core. *)
Definition opens (l : list nat) (cpu : nat) : bool :=
  match first_of_core l (core_id_of cpu) with
  | Some x => x =? cpu
  | None => false
  end.

(** The common shape of both loop bodies: mark, then either [continue] or
    run [f] on the rest of the state. *)
Definition guarded {S : Type} (f : nat -> S -> result S) (cpu : nat)
    (st : list nat * S) : result (list nat * S) :=
  marked <- mark_first_thread (fst st) cpu ;;
  if negb (snd marked) then Ok (fst marked, snd st)
  else s' <- f cpu (snd st) ;; Ok (fst marked, s').

(** What the sampler does to the store for a representative. *)
Definition sample_slot (cpu : nat) (cpu_freqs : list cpu_freq_info)
    : result (list cpu_freq_info) :=
  slot <- store_get cpu_freqs cpu ;;
  Ok (<[ cpu := update_slot slot (freq_of_msr (rdmsrl_on_cpu cpu)) ]> cpu_freqs).

(** The buffer after [sprintf] stored the text [s] at offset [ptr]. *)
Definition write_text (buf : list ascii) (ptr : nat) (s : string) : list ascii :=
  take ptr buf ++ list_ascii_of_string s ++ NUL :: drop (ptr + String.length s + 1) buf.

(** No NUL byte in [s]. *)
Definition no_nul (s : string) : bool :=
  forallb (fun c => negb (Ascii.eqb c NUL)) (list_ascii_of_string s).

(** What the formatter does to the buffer for a representative. *)
Definition print_slot (cpu_freqs : list cpu_freq_info) (cpu : nat)
    (b : list ascii * nat) : result (list ascii * nat) :=
  slot <- store_get cpu_freqs cpu ;;
  written <- sprintf (fst b) (snd b) (format_line cpu slot) ;;
  Ok (fst written, snd b + snd written).

(** ** Facts *)

Lemma for_each_cons {S : Type} (body : nat -> S -> result S) x l (s : S) :
  for_each body (x :: l) s = (s' <- body x s ;; for_each body l s').
Proof. reflexivity. Qed.

Lemma for_each_app {S : Type} (body : nat -> S -> result S) (l1 l2 : list nat) (s : S) :
  for_each body (l1 ++ l2) s = (s' <- for_each body l1 s ;; for_each body l2 s').
Proof.
  revert s. induction l1 as [|x l1 IH]; intros s; simpl; [reflexivity|].
  destruct (body x s) as [s'|e]; simpl; [apply IH | reflexivity].
Qed.

Lemma for_each_ext {S : Type} (f g : nat -> S -> result S) (l : list nat) (s : S) :
  (forall cpu s, f cpu s = g cpu s) -> for_each f l s = for_each g l s.
Proof.
  intros E. revert s. induction l as [|x l IH]; intros s; simpl; [reflexivity|].
  rewrite E. destruct (g x s); simpl; auto.
Qed.

Lemma sample_cpu_guarded cpu st : sample_cpu cpu st = guarded sample_slot cpu st.
Proof.
  destruct st as [t fr]. unfold sample_cpu, guarded, sample_slot. simpl.
  destruct (mark_first_thread t cpu) as [[t' b]|e]; simpl; [|reflexivity].
  destruct b; simpl; [|reflexivity].
  destruct (store_get fr cpu); reflexivity.
Qed.

Lemma format_cpu_guarded fr cpu st :
  format_cpu fr cpu st = guarded (print_slot fr) cpu st.
Proof.
  destruct st as [t [buf ptr]]. unfold format_cpu, guarded, print_slot. simpl.
  destruct (mark_first_thread t cpu) as [[t' b]|e]; simpl; [|reflexivity].
  destruct b; simpl; [|reflexivity].
  destruct (store_get fr cpu) as [slot|e]; simpl; [|reflexivity].
  destruct (sprintf buf ptr (format_line cpu slot)) as [[buf' len]|e]; reflexivity.
Qed.

(** **** The scratch array *)

Lemma first_of_core_In l c x : first_of_core l c = Some x -> In x l /\ core_id_of x = c.
Proof.
  unfold first_of_core. intros H. apply find_some in H as [H1 H2].
  split; [assumption|]. now apply Nat.eqb_eq.
Qed.

Lemma first_of_core_snoc p cpu c :
  first_of_core (p ++ [cpu]) c =
  match first_of_core p c with
  | Some x => Some x
  | None => if core_id_of cpu =? c then Some cpu else None
  end.
Proof.
  unfold first_of_core. induction p as [|x p IH]; simpl; [reflexivity|].
  destruct (core_id_of x =? c); [reflexivity | apply IH].
Qed.

Lemma table_of_length l : length (table_of l) = NR_CPUS.
Proof. unfold table_of. now rewrite length_map, length_seq. Qed.

Lemma table_of_lookup l c :
  c < NR_CPUS -> table_of l !! c = Some (default NR_CPUS (first_of_core l c)).
Proof.
  intros Hc. unfold table_of. rewrite list_lookup_fmap, lookup_seq_lt by assumption.
  reflexivity.
Qed.

Lemma table_of_nil : table_of [] = first_thread_per_core_init.
Proof.
  apply list_eq. intros i. unfold first_thread_per_core_init.
  destruct (decide (i < NR_CPUS)) as [Hi|Hi].
  - rewrite table_of_lookup by assumption. simpl.
    symmetry. apply lookup_replicate_2. assumption.
  - rewrite !lookup_ge_None_2; [reflexivity| |].
    + rewrite length_replicate. lia.
    + rewrite table_of_length. lia.
Qed.

Lemma table_of_lookup_ge l c : NR_CPUS <= c -> table_of l !! c = None.
Proof. intros Hc. apply lookup_ge_None_2. now rewrite table_of_length. Qed.

Lemma table_of_snoc_seen p cpu x :
  first_of_core p (core_id_of cpu) = Some x -> table_of (p ++ [cpu]) = table_of p.
Proof.
  intros Hx. apply list_eq. intros i.
  destruct (decide (i < NR_CPUS)) as [Hi|Hi].
  - rewrite !table_of_lookup by assumption. rewrite first_of_core_snoc.
    destruct (first_of_core p i) as [y|] eqn:Ey; [reflexivity|].
    destruct (core_id_of cpu =? i) eqn:Ec; [|reflexivity].
    apply Nat.eqb_eq in Ec. subst i. congruence.
  - rewrite !table_of_lookup_ge by lia. reflexivity.
Qed.

Lemma table_of_snoc_fresh p cpu :
  first_of_core p (core_id_of cpu) = None ->
  <[ core_id_of cpu := cpu ]> (table_of p) = table_of (p ++ [cpu]).
Proof.
  intros Hx. apply list_eq. intros i.
  destruct (decide (i < NR_CPUS)) as [Hi|Hi].
  - rewrite (table_of_lookup (p ++ [cpu])) by assumption.
    rewrite first_of_core_snoc.
    destruct (decide (core_id_of cpu = i)) as [E|Hne].
    + rewrite <- E in *. rewrite list_lookup_insert_eq by (rewrite table_of_length; assumption).
      rewrite Hx, Nat.eqb_refl. reflexivity.
    + rewrite list_lookup_insert_ne by assumption.
      rewrite table_of_lookup by assumption.
      destruct (first_of_core p i); [reflexivity|].
      apply Nat.eqb_neq in Hne. rewrite Hne. reflexivity.
  - rewrite table_of_lookup_ge by lia.
    apply lookup_ge_None_2. rewrite length_insert, table_of_length. lia.
Qed.

(** One pass through lines 48-58 takes the table of the CPUs met so far
    to the table with [cpu] added, and tells whether [cpu] opened its core. *)
Lemma mark_first_thread_table p cpu :
  (forall x, In x p -> x < NR_CPUS) -> ~ In cpu p ->
  core_id_of cpu < NR_CPUS ->
  mark_first_thread (table_of p) cpu =
  Ok (table_of (p ++ [cpu]),
      match first_of_core p (core_id_of cpu) with Some _ => false | None => true end).
Proof.
  intros Hp Hnew Hc. unfold mark_first_thread, scratch_get.
  rewrite table_of_lookup by assumption. simpl.
  destruct (first_of_core p (core_id_of cpu)) as [x|] eqn:Ex; simpl.
  - apply first_of_core_In in Ex as Hin. destruct Hin as [Hin _].
    assert (x <> NR_CPUS) as Hx by (specialize (Hp x Hin); lia).
    apply Nat.eqb_neq in Hx. rewrite Hx. simpl.
    rewrite table_of_lookup by assumption. rewrite Ex. simpl.
    rewrite (table_of_snoc_seen p cpu x Ex).
    assert (cpu <> x) as Hne by (intros ->; contradiction).
    apply Nat.eqb_neq in Hne. rewrite Hne. reflexivity.
  - rewrite Nat.eqb_refl. unfold scratch_set.
    rewrite table_of_length. destruct (decide (core_id_of cpu < NR_CPUS)); [|contradiction].
    simpl. rewrite list_lookup_insert_eq by (rewrite table_of_length; assumption).
    rewrite table_of_snoc_fresh by assumption. simpl. rewrite Nat.eqb_refl. reflexivity.
Qed.

(** A fault of [mark_first_thread] is always the scratch array's. *)
Lemma mark_first_thread_fault t cpu e :
  mark_first_thread t cpu = Fault e -> e = ScratchOutOfBounds.
Proof.
  unfold mark_first_thread, scratch_get, scratch_set.
  destruct (t !! core_id_of cpu) as [v|]; simpl; [|congruence].
  destruct (v =? NR_CPUS); simpl.
  - destruct (decide (core_id_of cpu < length t)); simpl; [|congruence].
    destruct (<[ core_id_of cpu := cpu ]> t !! core_id_of cpu); simpl; congruence.
  - destruct (t !! core_id_of cpu); simpl; congruence.
Qed.

(** The loop skeleton: with every core id in range, a loop whose body is
    [guarded f] runs [f] on the CPUs that open a core, in order, and
    leaves the table of all the CPUs. *)
Lemma for_each_guarded {S : Type} (f : nat -> S -> result S) l : forall p s,
  (forall x, In x (p ++ l) -> x < NR_CPUS /\ core_id_of x < NR_CPUS) ->
  List.NoDup (p ++ l) ->
  for_each (guarded f) l (table_of p, s) =
  (s' <- for_each f (firsts_after p l) s ;; Ok (table_of (p ++ l), s')).
Proof.
  induction l as [|cpu rest IH]; intros p s Hr Hnd; simpl.
  - rewrite app_nil_r. reflexivity.
  - assert (~ In cpu p) as Hnew.
    { apply List.NoDup_remove_2 in Hnd. intros Hin. apply Hnd.
      apply in_or_app. now left. }
    assert (cpu < NR_CPUS /\ core_id_of cpu < NR_CPUS) as [Hcpu Hcore].
    { apply Hr. apply in_or_app. right. now left. }
    unfold guarded at 1. simpl.
    rewrite mark_first_thread_table; [|intros x Hx; apply Hr, in_or_app; now left|assumption..].
    simpl.
    replace (p ++ cpu :: rest) with ((p ++ [cpu]) ++ rest) in * by (now rewrite <- app_assoc).
    destruct (first_of_core p (core_id_of cpu)) as [x|] eqn:Ex; simpl.
    + apply IH; assumption.
    + destruct (f cpu s) as [s1|e]; simpl; [|reflexivity].
      apply IH; assumption.
Qed.

(** **** The online CPUs and their representatives *)

Lemma find_filter_seq (P Q : nat -> bool) n : forall a x,
  List.find P (List.filter Q (seq a n)) = Some x <->
  (a <= x < a + n /\ Q x = true /\ P x = true /\
   forall y, a <= y < x -> Q y = true -> P y = false).
Proof.
  induction n as [|n IH]; intros a x; simpl.
  - split; [discriminate | lia].
  - destruct (Q a) eqn:Qa; simpl; [destruct (P a) eqn:Pa|].
    + split.
      * intros [= <-]. repeat split; try assumption; lia.
      * intros (Hr & _ & _ & Hmin). destruct (decide (x = a)) as [->|Hne]; [reflexivity|].
        specialize (Hmin a ltac:(lia) Qa). congruence.
    + rewrite IH. split.
      * intros (Hr & Qx & Px & Hmin). repeat split; try assumption; try lia.
        intros y Hy Qy. destruct (decide (y = a)) as [->|Hne]; [assumption|].
        apply Hmin; [lia | assumption].
      * intros (Hr & Qx & Px & Hmin).
        assert (x <> a) by congruence.
        repeat split; try assumption; try lia.
        intros y Hy Qy. apply Hmin; [lia | assumption].
    + rewrite IH. split.
      * intros (Hr & Qx & Px & Hmin). repeat split; try assumption; try lia.
        intros y Hy Qy. destruct (decide (y = a)) as [->|Hne]; [congruence|].
        apply Hmin; [lia | assumption].
      * intros (Hr & Qx & Px & Hmin).
        assert (x <> a) by congruence.
        repeat split; try assumption; try lia.
        intros y Hy Qy. apply Hmin; [lia | assumption].
Qed.

Lemma online_cpus_In x : In x online_cpus <-> x < NR_CPUS /\ cpu_online x = true.
Proof.
  unfold online_cpus. rewrite filter_In, in_seq.
  split; intros [H1 H2]; (split; [lia | assumption]).
Qed.

Lemma online_cpus_NoDup : List.NoDup online_cpus.
Proof. apply List.NoDup_filter, List.seq_NoDup. Qed.

(** The scratch entry of a core is its lowest online CPU. *)
Lemma first_of_core_online c x :
  first_of_core online_cpus c = Some x <-> lowest_online_of_core x c.
Proof.
  unfold first_of_core, online_cpus, lowest_online_of_core.
  rewrite find_filter_seq. split.
  - intros (Hr & Qx & Px & Hmin). apply Nat.eqb_eq in Px.
    repeat split; try assumption; try lia.
    intros y Hy Qy. apply Nat.eqb_neq. apply Hmin; [lia | assumption].
  - intros (Hr & Qx & Px & Hmin).
    repeat split; try assumption; try lia.
    + now apply Nat.eqb_eq.
    + intros y Hy Qy. apply Nat.eqb_neq. apply Hmin; [lia | assumption].
Qed.

Lemma first_of_core_online_None c :
  first_of_core online_cpus c = None <->
  forall y, y < NR_CPUS -> cpu_online y = true -> core_id_of y <> c.
Proof.
  unfold first_of_core. split.
  - intros H y Hy Qy. apply Nat.eqb_neq.
    apply (find_none _ _ H). now apply online_cpus_In.
  - intros H. destruct (List.find _ _) as [x|] eqn:E; [|reflexivity].
    apply find_some in E as [Hin Hx]. apply online_cpus_In in Hin as [? ?].
    apply Nat.eqb_eq in Hx. exfalso. eapply H; eassumption.
Qed.

Lemma is_first_thread_lowest cpu :
  cpu < NR_CPUS ->
  is_first_thread cpu = true <-> lowest_online_of_core cpu (core_id_of cpu).
Proof.
  intros Hc. unfold is_first_thread, lowest_online_of_core.
  rewrite andb_true_iff, forallb_forall. split.
  - intros [Ho Hall]. repeat split; try assumption.
    intros y Hy Oy Ey. specialize (Hall y). rewrite in_seq in Hall.
    specialize (Hall ltac:(lia)). rewrite Oy, Ey, Nat.eqb_refl in Hall. discriminate.
  - intros (_ & Ho & _ & Hmin). split; [assumption|].
    intros y Hy. apply in_seq in Hy.
    destruct (cpu_online y) eqn:Oy; [|reflexivity]. simpl.
    apply negb_true_iff, Nat.eqb_neq. apply Hmin; [lia | assumption].
Qed.

Lemma first_of_core_app p l c :
  first_of_core (p ++ l) c =
  match first_of_core p c with
  | Some x => Some x
  | None => first_of_core l c
  end.
Proof.
  unfold first_of_core. induction p as [|x p IH]; simpl; [reflexivity|].
  destruct (core_id_of x =? c); [reflexivity | apply IH].
Qed.

Lemma firsts_after_filter l : forall p,
  List.NoDup (p ++ l) -> firsts_after p l = List.filter (opens (p ++ l)) l.
Proof.
  induction l as [|cpu rest IH]; intros p Hnd; simpl; [reflexivity|].
  assert (~ In cpu p) as Hnew.
  { apply List.NoDup_remove_2 in Hnd. intros Hin. apply Hnd, in_or_app. now left. }
  replace (p ++ cpu :: rest) with ((p ++ [cpu]) ++ rest) in * by (now rewrite <- app_assoc).
  rewrite IH by assumption.
  replace (opens ((p ++ [cpu]) ++ rest) cpu)
    with (match first_of_core p (core_id_of cpu) with Some _ => false | None => true end).
  - destruct (first_of_core p (core_id_of cpu)); reflexivity.
  - unfold opens. rewrite <- app_assoc, first_of_core_app. simpl.
    destruct (first_of_core p (core_id_of cpu)) as [x|] eqn:Ex.
    + apply first_of_core_In in Ex as [Hin _]. symmetry. apply Nat.eqb_neq.
      intros ->. contradiction.
    + unfold first_of_core. simpl. rewrite !Nat.eqb_refl. reflexivity.
Qed.

Lemma filter_filter {A : Type} (f g : A -> bool) (l : list A) :
  List.filter f (List.filter g l) = List.filter (fun x => g x && f x) l.
Proof.
  induction l as [|x l IH]; simpl; [reflexivity|].
  destruct (g x); simpl; [destruct (f x)|]; rewrite IH; reflexivity.
Qed.

(** The CPUs that get past the [continue] of either loop are the
    representatives. *)
Lemma firsts_after_online : firsts_after [] online_cpus = first_threads.
Proof.
  rewrite firsts_after_filter by apply online_cpus_NoDup. simpl.
  unfold online_cpus at 2. rewrite filter_filter. unfold first_threads.
  apply filter_ext_in. intros x Hx. apply in_seq in Hx.
  apply eq_true_iff_eq. rewrite andb_true_iff.
  rewrite is_first_thread_lowest by lia.
  unfold opens. split.
  - intros [Ho Hopen]. destruct (first_of_core online_cpus (core_id_of x)) as [y|] eqn:Ey;
      [|discriminate].
    apply Nat.eqb_eq in Hopen. subst y. now apply first_of_core_online.
  - intros Hl. apply first_of_core_online in Hl as Hf. rewrite Hf, Nat.eqb_refl.
    split; [apply Hl | reflexivity].
Qed.

(** A loop of this shape that runs to its end met no core id outside the
    scratch array. *)
Lemma for_each_guarded_in_range {S : Type} (f : nat -> S -> result S) l : forall p s r,
  (forall x, In x (p ++ l) -> x < NR_CPUS) ->
  List.NoDup (p ++ l) ->
  for_each (guarded f) l (table_of p, s) = Ok r ->
  forall x, In x l -> core_id_of x < NR_CPUS.
Proof.
  induction l as [|cpu rest IH]; intros p s r Hr Hnd Hrun x Hx; [destruct Hx|].
  assert (~ In cpu p) as Hnew.
  { apply List.NoDup_remove_2 in Hnd. intros Hin. apply Hnd, in_or_app. now left. }
  destruct (decide (core_id_of cpu < NR_CPUS)) as [Hc|Hc].
  - destruct Hx as [<-|Hx]; [assumption|].
    simpl in Hrun. unfold guarded at 1 in Hrun. simpl in Hrun.
    rewrite mark_first_thread_table in Hrun;
      [|intros y Hy; apply Hr, in_or_app; now left|assumption..].
    simpl in Hrun.
    replace (p ++ cpu :: rest) with ((p ++ [cpu]) ++ rest) in * by (now rewrite <- app_assoc).
    destruct (first_of_core p (core_id_of cpu)); simpl in Hrun.
    + eapply IH; eassumption.
    + destruct (f cpu s) as [s1|e]; simpl in Hrun; [|discriminate].
      eapply IH; eassumption.
  - simpl in Hrun. unfold guarded at 1, mark_first_thread, scratch_get in Hrun.
    simpl in Hrun. rewrite table_of_lookup_ge in Hrun by lia. discriminate.
Qed.

Lemma online_cpus_lt x : In x ([] ++ online_cpus) -> x < NR_CPUS.
Proof. simpl. intros H. now apply online_cpus_In in H. Qed.

Lemma core_ids_in_range_online :
  core_ids_in_range <->
  forall x, In x ([] ++ online_cpus) -> x < NR_CPUS /\ core_id_of x < NR_CPUS.
Proof.
  unfold core_ids_in_range. simpl. split.
  - intros H x Hx. apply online_cpus_In in Hx as [? ?]. auto.
  - intros H cpu Hc Ho. apply H, online_cpus_In. auto.
Qed.

(** Both loops, when they run to their end: the scratch array is the table
    of the online CPUs and the body ran on the representatives only. *)
Lemma guarded_loop_ok {S : Type} (f : nat -> S -> result S) (s : S) r :
  for_each (guarded f) online_cpus (first_thread_per_core_init, s) = Ok r ->
  core_ids_in_range /\ fst r = table_of online_cpus /\
  for_each f first_threads s = Ok (snd r).
Proof.
  rewrite <- table_of_nil. intros Hrun.
  assert (core_ids_in_range) as Hin.
  { intros cpu Hc Ho. eapply for_each_guarded_in_range; try eassumption.
    - apply online_cpus_lt.
    - apply online_cpus_NoDup.
    - apply online_cpus_In. auto. }
  split; [assumption|].
  rewrite for_each_guarded in Hrun;
    [|now apply core_ids_in_range_online | apply online_cpus_NoDup].
  rewrite firsts_after_online in Hrun. simpl in Hrun.
  destruct (for_each f first_threads s) as [s'|e]; simpl in Hrun; [|discriminate].
  injection Hrun as <-. auto.
Qed.

Lemma guarded_loop_run {S : Type} (f : nat -> S -> result S) (s : S) :
  core_ids_in_range ->
  for_each (guarded f) online_cpus (first_thread_per_core_init, s) =
  (s' <- for_each f first_threads s ;; Ok (table_of online_cpus, s')).
Proof.
  intros Hin. rewrite <- table_of_nil.
  rewrite for_each_guarded;
    [|now apply core_ids_in_range_online | apply online_cpus_NoDup].
  rewrite firsts_after_online. reflexivity.
Qed.

Lemma first_threads_In cpu :
  In cpu first_threads <-> cpu < NR_CPUS /\ is_first_thread cpu = true.
Proof.
  unfold first_threads. rewrite filter_In, in_seq.
  split; intros [H1 H2]; (split; [lia | assumption]).
Qed.

Lemma first_threads_NoDup : List.NoDup first_threads.
Proof. apply List.NoDup_filter, List.seq_NoDup. Qed.

(** **** The sampler *)

Lemma for_each_sample_slot_ok l : forall fr fr',
  List.NoDup l -> for_each sample_slot l fr = Ok fr' ->
  length fr' = length fr /\
  (forall i, ~ In i l -> fr' !! i = fr !! i) /\
  (forall i, In i l ->
     fr' !! i = (fun r => update_slot r (freq_of_msr (rdmsrl_on_cpu i))) <$> fr !! i).
Proof.
  induction l as [|x rest IH]; intros fr fr' Hnd Hrun; simpl in Hrun.
  - injection Hrun as <-. repeat split; auto. intros i [].
  - unfold sample_slot at 1, store_get in Hrun.
    destruct (fr !! x) as [r|] eqn:Ex; simpl in Hrun; [|discriminate].
    apply List.NoDup_cons_iff in Hnd as [Hx Hnd].
    apply IH in Hrun as (Hlen & Hout & Hin); [|assumption].
    rewrite length_insert in Hlen.
    apply lookup_lt_Some in Ex as Hlt.
    split; [assumption|]. split.
    + intros i Hi. rewrite Hout by (intros ?; apply Hi; now right).
      apply list_lookup_insert_ne. intros ->. apply Hi. now left.
    + intros i [<-|Hi].
      * rewrite Hout by assumption.
        rewrite list_lookup_insert_eq by assumption. rewrite Ex. reflexivity.
      * rewrite Hin by assumption.
        rewrite list_lookup_insert_ne by (intros ->; contradiction). reflexivity.
Qed.

Lemma for_each_sample_slot_total l : forall fr,
  (forall x, In x l -> x < length fr) -> exists fr', for_each sample_slot l fr = Ok fr'.
Proof.
  induction l as [|x rest IH]; intros fr Hl; simpl; [eauto|].
  unfold sample_slot at 1, store_get.
  destruct (lookup_lt_is_Some_2 fr x (Hl x (or_introl eq_refl))) as [r ->]. simpl.
  apply IH. intros y Hy. rewrite length_insert. apply Hl. now right.
Qed.

(** [read_cpu_frequencies], slot by slot. *)
Lemma read_cpu_frequencies_ok fr fr' :
  read_cpu_frequencies true fr = Ok fr' ->
  core_ids_in_range /\ length fr' = length fr /\
  (forall cpu, ~ (cpu < NR_CPUS /\ is_first_thread cpu = true) -> fr' !! cpu = fr !! cpu) /\
  (forall cpu, cpu < NR_CPUS -> is_first_thread cpu = true ->
     fr' !! cpu = (fun r => update_slot r (freq_of_msr (rdmsrl_on_cpu cpu))) <$> fr !! cpu).
Proof.
  unfold read_cpu_frequencies, sampler_loop. simpl.
  rewrite (for_each_ext _ _ _ _ sample_cpu_guarded).
  destruct (for_each _ _ _) as [r|e] eqn:Hrun; simpl; [|discriminate].
  intros [= <-]. apply guarded_loop_ok in Hrun as (Hin & _ & Hrun).
  apply for_each_sample_slot_ok in Hrun as (Hlen & Hout & Hupd);
    [|apply first_threads_NoDup].
  repeat split; try assumption.
  - intros cpu Hc. apply Hout. now rewrite first_threads_In.
  - intros cpu Hc Hf. apply Hupd. now rewrite first_threads_In.
Qed.

Lemma read_cpu_frequencies_total fr :
  core_ids_in_range -> length fr = NR_CPUS ->
  exists fr', read_cpu_frequencies true fr = Ok fr'.
Proof.
  intros Hin Hlen. unfold read_cpu_frequencies, sampler_loop. simpl.
  rewrite (for_each_ext _ _ _ _ sample_cpu_guarded).
  rewrite guarded_loop_run by assumption.
  destruct (for_each_sample_slot_total first_threads fr) as [fr' ->].
  - intros x Hx. apply first_threads_In in Hx. lia.
  - simpl. eauto.
Qed.

(** **** Text and the report buffer *)

Lemma list_ascii_of_string_app s1 s2 :
  list_ascii_of_string (s1 ++ s2) = list_ascii_of_string s1 ++ list_ascii_of_string s2.
Proof. induction s1 as [|c s1 IH]; simpl; [reflexivity | now rewrite IH]. Qed.

Lemma list_ascii_of_string_length s : length (list_ascii_of_string s) = String.length s.
Proof. induction s as [|c s IH]; simpl; [reflexivity | now rewrite IH]. Qed.

Lemma string_length_app s1 s2 :
  String.length (s1 ++ s2) = String.length s1 + String.length s2.
Proof. induction s1 as [|c s1 IH]; simpl; [reflexivity | now rewrite IH]. Qed.

Lemma sprintf_fits buf ptr s :
  ptr + String.length s + 1 <= length buf ->
  sprintf buf ptr s = Ok (write_text buf ptr s, String.length s).
Proof.
  intros Hfit. unfold sprintf, write_text.
  rewrite length_app, list_ascii_of_string_length. simpl.
  destruct (decide _) as [_|Hn]; [|lia].
  rewrite <- app_assoc. simpl. rewrite Nat.add_assoc. reflexivity.
Qed.

Lemma sprintf_overrun buf ptr s :
  length buf < ptr + String.length s + 1 -> sprintf buf ptr s = Fault BufferOverrun.
Proof.
  intros Hfit. unfold sprintf.
  rewrite length_app, list_ascii_of_string_length. simpl.
  destruct (decide _) as [Hn|_]; [lia | reflexivity].
Qed.

Lemma write_text_length buf ptr s :
  ptr + String.length s + 1 <= length buf -> length (write_text buf ptr s) = length buf.
Proof.
  intros Hfit. unfold write_text.
  rewrite !length_app. simpl.
  rewrite length_take, length_drop, list_ascii_of_string_length. lia.
Qed.

(** Two consecutive [sprintf]s, the second starting on the first one's
    NUL, leave what one [sprintf] of the joined text leaves. *)
Lemma write_text_twice buf ptr s1 s2 :
  ptr + String.length s1 + String.length s2 + 1 <= length buf ->
  write_text (write_text buf ptr s1) (ptr + String.length s1) s2 =
  write_text buf ptr (s1 ++ s2).
Proof.
  intros Hfit. unfold write_text at 1.
  assert (length (take ptr buf ++ list_ascii_of_string s1) = ptr + String.length s1) as Hl.
  { rewrite length_app, length_take, list_ascii_of_string_length. lia. }
  replace (take (ptr + String.length s1) (write_text buf ptr s1))
    with (take ptr buf ++ list_ascii_of_string s1).
  2:{ unfold write_text. rewrite app_assoc. symmetry. apply take_app_length'. now rewrite Hl. }
  replace (drop (ptr + String.length s1 + String.length s2 + 1) (write_text buf ptr s1))
    with (drop (ptr + String.length (s1 ++ s2) + 1) buf).
  2:{ unfold write_text. rewrite app_assoc.
      replace (ptr + String.length s1 + String.length s2 + 1)
        with (length (take ptr buf ++ list_ascii_of_string s1) + (String.length s2 + 1)) by lia.
      rewrite drop_app_add. rewrite string_length_app.
      replace (String.length s2 + 1) with (S (String.length s2)) by lia. simpl.
      rewrite drop_drop. f_equal. lia. }
  unfold write_text. rewrite list_ascii_of_string_app, <- !app_assoc. reflexivity.
Qed.

Lemma strlen_text bytes rest :
  forallb (fun c => negb (Ascii.eqb c NUL)) bytes = true ->
  strlen (bytes ++ NUL :: rest) = Ok (length bytes).
Proof.
  induction bytes as [|c bytes IH]; simpl; intros H; [reflexivity|].
  apply andb_true_iff in H as [Hc H]. apply negb_true_iff in Hc. rewrite Hc.
  rewrite IH by assumption. reflexivity.
Qed.

(** A reader of a buffer that holds [s] and its NUL at offset 0 sees [s]. *)
Lemma published_write_text buf s :
  no_nul s = true -> published (write_text buf 0 s) = Ok s.
Proof.
  intros Hs. unfold published, write_text. rewrite take_0. simpl.
  rewrite strlen_text by assumption. simpl.
  rewrite take_app_length. now rewrite string_of_list_ascii_of_string.
Qed.

(** [fmt_u] is the decimal numeral of the value: reading it back as a
    decimal gives the [unsigned int]. *)
Lemma fmt_u_decimal v :
  option_map N.of_uint (NilEmpty.uint_of_string (fmt_u v)) = Some (Z.to_N (v mod UINT_MOD)).
Proof.
  unfold fmt_u. rewrite NilEmpty.usu. simpl. now rewrite DecimalN.Unsigned.of_to.
Qed.

(** What [published] calls the text is what one read of the whole file
    delivers. *)
Lemma proc_read_whole buf n count :
  strlen buf = Ok n -> n <> 0 -> (Z.of_nat n <= count)%Z ->
  proc_read (fun _ => 0%Z) count 0 buf
  = Ok {| ret := Z.of_nat n; new_pos := Z.of_nat n; delivered := take n buf |}.
Proof.
  intros Hlen Hn Hcount. unfold proc_read. rewrite Hlen. cbn [bind].
  unfold simple_read_from_buffer.
  change (0 <? 0)%Z with false. cbn match.
  destruct (0 >=? Z.of_nat n)%Z eqn:E1; [lia|].
  destruct (count =? 0)%Z eqn:E2; [lia|]. cbn [orb].
  assert ((if (count >? Z.of_nat n - 0)%Z then (Z.of_nat n - 0)%Z else count) = Z.of_nat n)
    as -> by (destruct (count >? Z.of_nat n - 0)%Z eqn:E3; lia).
  destruct (0 =? Z.of_nat n)%Z eqn:E4; [lia|].
  rewrite Z.sub_0_r, Z.add_0_l, Nat2Z.id. reflexivity.
Qed.

Lemma no_nul_app s1 s2 : no_nul (s1 ++ s2) = no_nul s1 && no_nul s2.
Proof. unfold no_nul. rewrite list_ascii_of_string_app. apply forallb_app. Qed.

Lemma no_nul_string_of_uint d : no_nul (NilEmpty.string_of_uint d) = true.
Proof. induction d; simpl; try assumption; reflexivity. Qed.

Lemma no_nul_fmt_u v : no_nul (fmt_u v) = true.
Proof. apply no_nul_string_of_uint. Qed.

Lemma no_nul_format_line cpu r : no_nul (format_line cpu r) = true.
Proof.
  unfold format_line. rewrite !no_nul_app, !no_nul_fmt_u. reflexivity.
Qed.

Lemma no_nul_report_lines fr l : no_nul (report_lines fr l) = true.
Proof.
  induction l as [|x l IH]; cbn [report_lines]; [reflexivity|].
  now rewrite no_nul_app, no_nul_format_line, IH.
Qed.

(** **** The formatter *)

Lemma string_app_nil_r (s : string) : (s ++ "")%string = s.
Proof. induction s as [|c s IH]; simpl; [reflexivity | now rewrite IH]. Qed.

Lemma print_slot_run fr x buf ptr :
  x < length fr ->
  print_slot fr x (buf, ptr) =
  (written <- sprintf buf ptr
                (format_line x (default (mk_cpu_freq_info 0 0 0) (fr !! x))) ;;
   Ok (fst written, ptr + snd written)).
Proof.
  intros Hx. unfold print_slot, store_get.
  destruct (lookup_lt_is_Some_2 fr x Hx) as [r ->]. reflexivity.
Qed.

(** The [sprintf]s of a pass amount to one [sprintf] of all the lines, and
    overrun the buffer exactly when the lines and the final NUL do not fit. *)
Lemma for_each_print_slot fr rest : forall x buf ptr,
  (forall y, In y (x :: rest) -> y < length fr) ->
  for_each (print_slot fr) (x :: rest) (buf, ptr) =
  if decide (ptr + String.length (report_lines fr (x :: rest)) + 1 <= length buf)
  then Ok (write_text buf ptr (report_lines fr (x :: rest)),
           ptr + String.length (report_lines fr (x :: rest)))
  else Fault BufferOverrun.
Proof.
  induction rest as [|y rest IH]; intros x buf ptr Hl.
  - cbn [for_each report_lines]. rewrite string_app_nil_r.
    rewrite print_slot_run by (apply Hl; now left).
    destruct (decide _) as [Hfit|Hfit].
    + rewrite sprintf_fits by assumption. reflexivity.
    + rewrite sprintf_overrun by lia. reflexivity.
  - rewrite for_each_cons. change (report_lines fr (x :: y :: rest))
      with (format_line x (default (mk_cpu_freq_info 0 0 0) (fr !! x))
              ++ report_lines fr (y :: rest))%string.
    rewrite print_slot_run by (apply Hl; now left).
    set (line := format_line x (default (mk_cpu_freq_info 0 0 0) (fr !! x))).
    set (text := report_lines fr (y :: rest)) in *.
    rewrite string_length_app.
    destruct (decide (ptr + String.length line + 1 <= length buf)) as [Hx|Hx].
    + rewrite sprintf_fits by assumption. cbn [bind fst snd].
      rewrite IH by (intros z Hz; apply Hl; now right). fold text.
      rewrite write_text_length by assumption.
      destruct (decide (ptr + String.length line + String.length text + 1 <= length buf))
        as [Hfit|Hfit].
      * destruct (decide _) as [_|Hn]; [|lia].
        rewrite write_text_twice by assumption. do 2 f_equal. lia.
      * destruct (decide _) as [Hn|_]; [lia | reflexivity].
    + rewrite sprintf_overrun by lia.
      destruct (decide _) as [Hn|_]; [lia | reflexivity].
Qed.

Lemma first_threads_nonempty :
  (exists cpu, cpu < NR_CPUS /\ cpu_online cpu = true) -> first_threads <> [].
Proof.
  intros (cpu & Hc & Ho) Hnil.
  destruct (first_of_core online_cpus (core_id_of cpu)) as [rep|] eqn:E.
  - apply first_of_core_online in E.
    assert (In rep first_threads) as Hin.
    { apply first_threads_In. split; [apply E|].
      apply is_first_thread_lowest; [apply E|].
      destruct E as (? & ? & <- & ?). repeat split; assumption. }
    rewrite Hnil in Hin. destruct Hin.
  - rewrite first_of_core_online_None in E. eapply E; eauto.
Qed.

(** [update_cpu_freq_data] on a machine with an online CPU. *)
Lemma update_cpu_freq_data_run fr buf :
  core_ids_in_range -> length fr = NR_CPUS ->
  (exists cpu, cpu < NR_CPUS /\ cpu_online cpu = true) ->
  update_cpu_freq_data true fr buf =
  if decide (String.length (report_lines fr first_threads) + 1 <= length buf)
  then Ok (write_text buf 0 (report_lines fr first_threads))
  else Fault BufferOverrun.
Proof.
  intros Hin Hlen Hon. unfold update_cpu_freq_data, formatter_loop. simpl.
  rewrite (for_each_ext _ _ _ _ (format_cpu_guarded fr)).
  rewrite guarded_loop_run by assumption.
  apply first_threads_nonempty in Hon.
  assert (forall y, In y first_threads -> y < length fr) as Hl.
  { intros y Hy. apply first_threads_In in Hy. lia. }
  destruct first_threads as [|x rest] eqn:E; [contradiction|].
  rewrite for_each_print_slot by assumption. simpl.
  destruct (decide _); reflexivity.
Qed.

(** **** Which faults can come out of where *)

Lemma for_each_fault {S : Type} (f : nat -> S -> result S) l : forall s e,
  for_each f l s = Fault e -> exists x s0, f x s0 = Fault e.
Proof.
  induction l as [|x l IH]; intros s e H; simpl in H; [discriminate|].
  destruct (f x s) as [s1|e1] eqn:E; simpl in H.
  - eapply IH; eassumption.
  - injection H as <-. eauto.
Qed.

Lemma sample_slot_fault x fr e : sample_slot x fr = Fault e -> e = StoreOutOfBounds.
Proof.
  unfold sample_slot, store_get. destruct (fr !! x); simpl; congruence.
Qed.

Lemma print_slot_fault fr x b e :
  print_slot fr x b = Fault e -> e = StoreOutOfBounds \/ e = BufferOverrun.
Proof.
  unfold print_slot, store_get. destruct (fr !! x) as [r|]; simpl; [|intros [= <-]; auto].
  unfold sprintf. destruct (decide _); simpl; [discriminate | intros [= <-]; auto].
Qed.

Lemma read_cpu_frequencies_no_scratch_fault k fr :
  core_ids_in_range -> read_cpu_frequencies k fr <> Fault ScratchOutOfBounds.
Proof.
  intros Hin. unfold read_cpu_frequencies, sampler_loop.
  destruct k; simpl; [|discriminate].
  rewrite (for_each_ext _ _ _ _ sample_cpu_guarded).
  rewrite guarded_loop_run by assumption.
  destruct (for_each sample_slot first_threads fr) as [s|e] eqn:E; simpl; [discriminate|].
  apply for_each_fault in E as (x & s0 & E). apply sample_slot_fault in E. congruence.
Qed.

Lemma update_cpu_freq_data_no_scratch_fault k fr buf :
  core_ids_in_range -> update_cpu_freq_data k fr buf <> Fault ScratchOutOfBounds.
Proof.
  intros Hin. unfold update_cpu_freq_data, formatter_loop.
  destruct k; simpl; [|discriminate].
  rewrite (for_each_ext _ _ _ _ (format_cpu_guarded fr)).
  rewrite guarded_loop_run by assumption.
  destruct (for_each (print_slot fr) first_threads (buf, 0)) as [s|e] eqn:E; simpl;
    [discriminate|].
  apply for_each_fault in E as (x & s0 & E). apply print_slot_fault in E.
  destruct E; congruence.
Qed.

Lemma update_cpu_freq_data_overrun fr buf :
  core_ids_in_range -> length fr = NR_CPUS ->
  (exists cpu, cpu < NR_CPUS /\ cpu_online cpu = true) ->
  length buf < String.length (report_lines fr first_threads) + 1 ->
  update_cpu_freq_data true fr buf = Fault BufferOverrun.
Proof.
  intros Hin Hlen Hon Hbig. rewrite update_cpu_freq_data_run by assumption.
  destruct (decide _) as [Hfit|_]; [lia | reflexivity].
Qed.

Lemma filter_seq_sorted (f : nat -> bool) n : forall a,
  StronglySorted lt (List.filter f (seq a n)).
Proof.
  induction n as [|n IH]; intros a; simpl; [constructor|].
  destruct (f a); [|apply IH].
  constructor; [apply IH|].
  apply List.Forall_forall. intros x Hx. apply filter_In in Hx as [Hx _].
  apply in_seq in Hx. lia.
Qed.

Lemma first_threads_sorted : StronglySorted lt first_threads.
Proof. apply filter_seq_sorted. Qed.

Lemma first_threads_lowest cpu :
  In cpu first_threads <-> lowest_online_of_core cpu (core_id_of cpu).
Proof.
  rewrite first_threads_In. split.
  - intros [Hc Hf]. now apply is_first_thread_lowest.
  - intros Hl. assert (cpu < NR_CPUS) as Hc by apply Hl.
    split; [assumption | now apply is_first_thread_lowest].
Qed.

(** The sampling loop's scratch array, with every core id in range. *)
Lemma sampler_loop_resolver fr :
  core_ids_in_range -> length fr = NR_CPUS -> resolver_correct fr.
Proof.
  intros Hin Hlen. unfold resolver_correct, sampler_loop.
  rewrite (for_each_ext _ _ _ _ sample_cpu_guarded).
  rewrite guarded_loop_run by assumption.
  destruct (for_each_sample_slot_total first_threads fr) as [fr' ->].
  { intros x Hx. apply first_threads_In in Hx. lia. }
  simpl. exists (table_of online_cpus), fr'. split; [reflexivity|].
  split; [|split].
  - intros cpu Hc Ho. rewrite table_of_lookup by (now apply Hin).
    destruct (first_of_core online_cpus (core_id_of cpu)) as [rep|] eqn:E.
    + exists rep. split; [reflexivity|]. now apply first_of_core_online.
    + exfalso. rewrite first_of_core_online_None in E. eapply E; eauto.
  - intros c rep H Hrep. destruct (decide (c < NR_CPUS)) as [Hc|Hc].
    + rewrite table_of_lookup in H by assumption.
      destruct (first_of_core online_cpus c) as [x|] eqn:E; simpl in H.
      * injection H as <-. now apply first_of_core_online.
      * congruence.
    + rewrite table_of_lookup_ge in H by lia. discriminate.
  - intros c Hc Hnone. rewrite table_of_lookup by assumption.
    apply first_of_core_online_None in Hnone. now rewrite Hnone.
Qed.

(** **** Start-up *)

Lemma for_each_zero_min l : forall fr,
  List.NoDup l -> (forall x, In x l -> x < length fr) ->
  exists fr', for_each zero_min l fr = Ok fr' /\ length fr' = length fr /\
    (forall i, ~ In i l -> fr' !! i = fr !! i) /\
    (forall i, In i l -> fr' !! i = (fun r => set_min r 0) <$> fr !! i).
Proof.
  induction l as [|x rest IH]; intros fr Hnd Hl.
  - exists fr. repeat split; auto. intros i [].
  - apply List.NoDup_cons_iff in Hnd as [Hx Hnd].
    assert (x < length fr) as Hlt by (apply Hl; now left).
    destruct (lookup_lt_is_Some_2 fr x Hlt) as [r Ex].
    destruct (IH (<[ x := set_min r 0 ]> fr) Hnd) as (fr' & Hrun & Hlen & Hout & Hin).
    { intros y Hy. rewrite length_insert. apply Hl. now right. }
    exists fr'. rewrite for_each_cons. unfold zero_min at 1, store_get. rewrite Ex. simpl.
    rewrite length_insert in Hlen.
    split; [assumption|]. split; [assumption|]. split.
    + intros i Hi. rewrite Hout by (intros ?; apply Hi; now right).
      apply list_lookup_insert_ne. intros ->. apply Hi. now left.
    + intros i [<-|Hi].
      * rewrite Hout by assumption.
        rewrite list_lookup_insert_eq by assumption. rewrite Ex. reflexivity.
      * rewrite Hin by assumption.
        rewrite list_lookup_insert_ne by (intros ->; contradiction). reflexivity.
Qed.

(** The store before the first refresh: [min] is cleared for the possible
    CPUs, and every other field still holds what the allocator handed out. *)
Lemma alloc_cpu_freqs_fields heap :
  length heap = NR_CPUS ->
  exists fr, alloc_cpu_freqs (Some heap) = Ok (Some fr) /\ length fr = NR_CPUS /\
    forall cpu r, heap !! cpu = Some r ->
      fr !! cpu = Some (if cpu_possible cpu then set_min r 0 else r).
Proof.
  intros Hlen. unfold alloc_cpu_freqs.
  destruct (for_each_zero_min possible_cpus heap) as (fr & -> & Hl & Hout & Hin).
  - apply List.NoDup_filter, List.seq_NoDup.
  - intros x Hx. apply filter_In in Hx as [Hx _]. apply in_seq in Hx. lia.
  - exists fr. split; [reflexivity|]. split; [lia|].
    intros cpu r Hr. apply lookup_lt_Some in Hr as Hlt.
    destruct (cpu_possible cpu) eqn:Hp.
    + rewrite Hin, Hr; [reflexivity|].
      apply filter_In. split; [apply in_seq; lia | assumption].
    + rewrite Hout; [assumption|].
      unfold possible_cpus. rewrite filter_In. intros [_ ?]. congruence.
Qed.

(** Base case of the slot invariant: the slots of the possible CPUs
    satisfy it before the first refresh. *)
Lemma alloc_cpu_freqs_slot_ok heap fr cpu r :
  length heap = NR_CPUS -> alloc_cpu_freqs (Some heap) = Ok (Some fr) ->
  cpu_possible cpu = true -> fr !! cpu = Some r -> slot_ok r.
Proof.
  intros Hlen Hrun Hp Hr.
  destruct (alloc_cpu_freqs_fields heap Hlen) as (fr0 & Hrun0 & Hl0 & Hf).
  rewrite Hrun in Hrun0. injection Hrun0 as <-.
  assert (cpu < length heap) as Hlt by (apply lookup_lt_Some in Hr; lia).
  destruct (lookup_lt_is_Some_2 heap cpu Hlt) as [r0 Er0].
  rewrite (Hf cpu r0 Er0), Hp in Hr. injection Hr as <-.
  intros Hmin. simpl in Hmin. congruence.
Qed.

End Probe.

(** ** The properties of the specification *)

(** Arithmetic of the update rule, for any slot and any sample. *)
Lemma update_slot_ordered (r : cpu_freq_info) (freq : Z) :
  (min (update_slot r freq) <= cur_freq (update_slot r freq) <= max (update_slot r freq))%Z.
Proof.
  unfold update_slot. simpl.
  destruct (freq >? max r)%Z eqn:Emax; simpl;
    destruct ((freq <? min r)%Z || (min r =? 0)%Z) eqn:Emin; simpl;
    try (apply orb_false_iff in Emin as [Elt _]); lia.
Qed.

Lemma update_slot_fields (r : cpu_freq_info) (freq : Z) :
  cur_freq (update_slot r freq) = freq /\
  max (update_slot r freq) = Z.max (max r) freq /\
  min (update_slot r freq) =
    if (min r =? 0)%Z || (freq <? min r)%Z then freq else min r.
Proof.
  unfold update_slot. simpl.
  destruct (freq >? max r)%Z eqn:Emax; simpl;
    destruct (freq <? min r)%Z eqn:Elt; destruct (min r =? 0)%Z eqn:E0; simpl;
    repeat split; lia.
Qed.

(** X18. Preservation of the slot invariant.  Whatever refresh cycle runs
    — any machine, any register values, any store — a slot that satisfied
    "[min] non-zero implies [min <= cur_freq <= max]" before the sampler's
    pass satisfies it after; a slot the pass wrote satisfies
    [min <= cur_freq <= max] outright; and one application of the update rule
    establishes the inequality for every slot and every sampled value. *)
Theorem slot_invariant_preserved
    (NR_CPUS : nat) (cpu_online : nat -> bool) (topology_core_id rdmsrl_on_cpu : nat -> Z)
    (kmalloc_ok : bool) (fr fr' : list cpu_freq_info) (cpu : nat) (r r' : cpu_freq_info) :
  read_cpu_frequencies NR_CPUS cpu_online topology_core_id rdmsrl_on_cpu kmalloc_ok fr = Ok fr' ->
  fr !! cpu = Some r ->
  fr' !! cpu = Some r' ->
  (slot_ok r -> slot_ok r') /\
  (cpu < NR_CPUS -> kmalloc_ok = true ->
   is_first_thread cpu_online topology_core_id cpu = true ->
   (min r' <= cur_freq r' <= max r')%Z) /\
  (forall (s : cpu_freq_info) (freq : Z),
     (min (update_slot s freq) <= cur_freq (update_slot s freq) <= max (update_slot s freq))%Z).
Proof.
  intros Hrun Hr Hr'. destruct kmalloc_ok.
  - apply read_cpu_frequencies_ok in Hrun as (_ & _ & Hout & Hupd).
    destruct (decide (cpu < NR_CPUS /\ is_first_thread cpu_online topology_core_id cpu = true))
      as [[Hc Hf]|Hn].
    + rewrite (Hupd cpu Hc Hf), Hr in Hr'. simpl in Hr'. injection Hr' as <-.
      split; [|split].
      * intros _ _. apply update_slot_ordered.
      * intros _ _ _. apply update_slot_ordered.
      * apply update_slot_ordered.
    + rewrite (Hout cpu Hn), Hr in Hr'. injection Hr' as <-.
      split; [|split].
      * auto.
      * intros Hc _ Hf. exfalso. apply Hn. auto.
      * apply update_slot_ordered.
  - simpl in Hrun. injection Hrun as <-. rewrite Hr in Hr'. injection Hr' as <-.
    split; [|split].
    + auto.
    + intros _ [=].
    + apply update_slot_ordered.
Qed.

Lemma slot_invariant_preserved_witness :
  read_cpu_frequencies 4 all_cpus smt2_core_id (msr_ratio 25) true (replicate 4 zero_slot)
    = Ok [mk_cpu_freq_info 2500 2500 2500; zero_slot;
          mk_cpu_freq_info 2500 2500 2500; zero_slot] /\
  (slot_ok zero_slot -> slot_ok (mk_cpu_freq_info 2500 2500 2500)) /\
  (0 < 4 -> true = true -> is_first_thread all_cpus smt2_core_id 0 = true ->
   (2500 <= 2500 <= 2500)%Z).
Proof.
  split; [reflexivity|].
  destruct (slot_invariant_preserved 4 all_cpus smt2_core_id (msr_ratio 25) true
              (replicate 4 zero_slot)
              [mk_cpu_freq_info 2500 2500 2500; zero_slot;
               mk_cpu_freq_info 2500 2500 2500; zero_slot]
              0 zero_slot (mk_cpu_freq_info 2500 2500 2500)
              eq_refl eq_refl eq_refl) as (H1 & H2 & _).
  split; [exact H1 | exact H2].
Defined.

(** C3. Frequency derivation.  For every 64-bit register value, the derived
    frequency is the 8-bit field in bits 8-15 times 100; that field is bit
    for bit bits 8..15 of the value; and a value whose field is 0x19 makes
    the sampler store [cur_freq = 2500]. *)
Theorem freq_of_msr_field (msr_value : Z) :
  (0 <= msr_value < 2 ^ 64)%Z ->
  freq_of_msr msr_value = (bits_8_15 msr_value * 100)%Z /\
  (0 <= bits_8_15 msr_value < 256)%Z /\
  (forall i, (0 <= i < 8)%Z ->
     Z.testbit (bits_8_15 msr_value) i = Z.testbit msr_value (8 + i)) /\
  (bits_8_15 msr_value = 25%Z ->
   forall r, cur_freq (update_slot r (freq_of_msr msr_value)) = 2500%Z).
Proof.
  intros Hrange.
  assert (0 <= bits_8_15 msr_value < 256)%Z as Hfield.
  { unfold bits_8_15. change (2 ^ 8)%Z with 256%Z. apply Z.mod_pos_bound. lia. }
  assert (freq_of_msr msr_value = (bits_8_15 msr_value * 100)%Z) as Hfreq.
  { unfold freq_of_msr, U64_MOD, UINT_MOD.
    rewrite (Z.mod_small msr_value) by assumption.
    rewrite Z.shiftr_div_pow2 by lia.
    change 255%Z with (Z.ones 8). rewrite Z.land_ones by lia.
    fold (bits_8_15 msr_value).
    rewrite (Z.mod_small (bits_8_15 msr_value)) by lia.
    apply Z.mod_small. lia. }
  split; [assumption|]. split; [assumption|]. split.
  - intros i Hi. unfold bits_8_15.
    rewrite Z.mod_pow2_bits_low by lia.
    rewrite Z.div_pow2_bits by lia. f_equal. lia.
  - intros H25 r. destruct (update_slot_fields r (freq_of_msr msr_value)) as [-> _].
    rewrite Hfreq, H25. reflexivity.
Qed.

Lemma freq_of_msr_field_witness :
  (0 <= 6400 < 2 ^ 64)%Z /\
  freq_of_msr 6400 = (bits_8_15 6400 * 100)%Z /\
  (bits_8_15 6400 = 25%Z ->
   forall r, cur_freq (update_slot r (freq_of_msr 6400)) = 2500%Z).
Proof.
  assert (0 <= 6400 < 2 ^ 64)%Z as H by (split; [lia | reflexivity]).
  split; [exact H|].
  destruct (freq_of_msr_field 6400 H) as (H1 & _ & _ & H4).
  split; [exact H1 | exact H4].
Defined.

(** C4. Update rule.  One step stores the sample in [cur_freq], the larger
    of the old [max] and the sample in [max], and the sample in [min]
    exactly when [min] was 0 or the sample is below it (otherwise [min]
    stays).  From a zeroed slot the samples 1200, 3400, 2000 leave
    [cur_freq = 2000], [max = 3400], [min = 1200], by the rule itself and
    through three runs of [read_cpu_frequencies] on a one-CPU machine whose
    register reads 12, 34, 20 in bits 8-15. *)
Theorem update_rule (r : cpu_freq_info) (freq : Z) :
  cur_freq (update_slot r freq) = freq /\
  max (update_slot r freq) = Z.max (max r) freq /\
  min (update_slot r freq) =
    (if (min r =? 0)%Z || (freq <? min r)%Z then freq else min r) /\
  fold_left update_slot [1200; 3400; 2000]%Z zero_slot = mk_cpu_freq_info 2000 3400 1200 /\
  (fr1 <- read_cpu_frequencies 1 all_cpus own_core_id (msr_ratio 12) true [zero_slot] ;;
   fr2 <- read_cpu_frequencies 1 all_cpus own_core_id (msr_ratio 34) true fr1 ;;
   read_cpu_frequencies 1 all_cpus own_core_id (msr_ratio 20) true fr2)
  = Ok [mk_cpu_freq_info 2000 3400 1200].
Proof.
  destruct (update_slot_fields r freq) as (H1 & H2 & H3).
  repeat split; try assumption; reflexivity.
Qed.

(** C8. Frame of the sampler.  After any refresh that ran to its end, the
    record of a CPU that is not the lowest online CPU of its core — in
    particular of any CPU whose core has no online CPU — is the record it
    had before. *)
Theorem sampler_frame
    (NR_CPUS : nat) (cpu_online : nat -> bool) (topology_core_id rdmsrl_on_cpu : nat -> Z)
    (kmalloc_ok : bool) (fr fr' : list cpu_freq_info) (cpu : nat) :
  read_cpu_frequencies NR_CPUS cpu_online topology_core_id rdmsrl_on_cpu kmalloc_ok fr = Ok fr' ->
  (~ lowest_online_of_core NR_CPUS cpu_online topology_core_id cpu
       (core_id_of topology_core_id cpu) \/
   (forall y, y < NR_CPUS -> cpu_online y = true ->
      core_id_of topology_core_id y <> core_id_of topology_core_id cpu)) ->
  fr' !! cpu = fr !! cpu.
Proof.
  intros Hrun Hnot. destruct kmalloc_ok.
  - apply read_cpu_frequencies_ok in Hrun as (_ & _ & Hout & _).
    apply Hout. intros [Hc Hf].
    apply (is_first_thread_lowest NR_CPUS) in Hf; [|assumption].
    destruct Hnot as [Hnot|Hnone]; [contradiction|].
    destruct Hf as (_ & Ho & _ & _). exact (Hnone cpu Hc Ho eq_refl).
  - simpl in Hrun. now injection Hrun as <-.
Qed.

Lemma sampler_frame_witness :
  read_cpu_frequencies 4 all_cpus smt2_core_id (msr_ratio 25) true snapshot_store
    = Ok [mk_cpu_freq_info 2500 3400 1200; zero_slot;
          mk_cpu_freq_info 2500 2500 1800; zero_slot] /\
  ~ lowest_online_of_core 4 all_cpus smt2_core_id 1 (core_id_of smt2_core_id 1) /\
  [mk_cpu_freq_info 2500 3400 1200; zero_slot;
   mk_cpu_freq_info 2500 2500 1800; zero_slot] !! 1 = snapshot_store !! 1.
Proof.
  assert (~ lowest_online_of_core 4 all_cpus smt2_core_id 1 (core_id_of smt2_core_id 1)) as Hn.
  { intros (_ & _ & _ & Hmin). exact (Hmin 0 ltac:(lia) eq_refl eq_refl). }
  split; [reflexivity|]. split; [exact Hn|].
  exact (sampler_frame 4 all_cpus smt2_core_id (msr_ratio 25) true snapshot_store
           [mk_cpu_freq_info 2500 3400 1200; zero_slot;
            mk_cpu_freq_info 2500 2500 1800; zero_slot] 1 eq_refl (or_introl Hn)).
Defined.

(** C2, with the bound on core ids made explicit. Topology resolver.  Provided every online CPU has a core
    id below [NR_CPUS], the sampling loop runs to its end and its scratch
    array gives every core that has an online CPU exactly one
    representative, the lowest-numbered online CPU of that core, and marks
    every other core as having none.  For CPUs 0,1,2,3 on cores 0,0,1,1 the
    representatives are CPU 0 for core 0 and CPU 2 for core 1. *)
Theorem resolver_lowest_online
    (NR_CPUS : nat) (cpu_online : nat -> bool) (topology_core_id rdmsrl_on_cpu : nat -> Z)
    (fr : list cpu_freq_info) :
  core_ids_in_range NR_CPUS cpu_online topology_core_id ->
  length fr = NR_CPUS ->
  resolver_correct NR_CPUS cpu_online topology_core_id rdmsrl_on_cpu fr /\
  (forall cpu, In cpu (first_threads NR_CPUS cpu_online topology_core_id) <->
     lowest_online_of_core NR_CPUS cpu_online topology_core_id cpu
       (core_id_of topology_core_id cpu)) /\
  first_threads 4 all_cpus smt2_core_id = [0; 2] /\
  (exists fr', sampler_loop 4 all_cpus smt2_core_id rdmsrl_on_cpu (replicate 4 zero_slot)
     = Ok ([0; 2; 4; 4], fr')).
Proof.
  intros Hin Hlen. split; [now apply sampler_loop_resolver|].
  split; [intros cpu; apply first_threads_lowest|].
  split; [reflexivity|]. eexists. reflexivity.
Qed.

Lemma resolver_lowest_online_witness :
  core_ids_in_range 4 all_cpus smt2_core_id /\
  length (replicate 4 zero_slot) = 4 /\
  resolver_correct 4 all_cpus smt2_core_id (msr_ratio 25) (replicate 4 zero_slot).
Proof.
  assert (core_ids_in_range 4 all_cpus smt2_core_id) as Hin.
  { intros cpu Hc _.
    destruct cpu as [|[|[|[|cpu]]]]; [vm_compute; lia .. | lia]. }
  split; [exact Hin|]. split; [reflexivity|].
  exact (proj1 (resolver_lowest_online 4 all_cpus smt2_core_id (msr_ratio 25)
                  (replicate 4 zero_slot) Hin eq_refl)).
Defined.

(** C2 as the specification words it, for every core-id mapping, fails: on a
    4-CPU configuration with core ids 0,4,8,12 the second CPU's core id is
    already past the scratch array and the loop does not run to its end. *)
Lemma resolver_sparse_core_ids :
  core_id_of sparse_core_id 1 = 4 /\
  sampler_loop 4 all_cpus sparse_core_id (msr_ratio 25) (replicate 4 zero_slot)
    = Fault ScratchOutOfBounds /\
  ~ resolver_correct 4 all_cpus sparse_core_id (msr_ratio 25) (replicate 4 zero_slot).
Proof.
  split; [reflexivity|]. split; [reflexivity|].
  intros (t & fr' & Hrun & _). discriminate Hrun.
Qed.

(** C10. Scratch array bounds.  When every online CPU has a core id below
    [NR_CPUS], neither pass ever takes the out-of-bounds branch of a scratch
    array access, whatever the store and the buffer hold; and with a store of
    [NR_CPUS] records the sampler runs to its end. *)
Theorem scratch_accesses_in_bounds
    (NR_CPUS : nat) (cpu_online : nat -> bool) (topology_core_id rdmsrl_on_cpu : nat -> Z)
    (kmalloc_ok : bool) (fr : list cpu_freq_info) (buf : list ascii) :
  core_ids_in_range NR_CPUS cpu_online topology_core_id ->
  read_cpu_frequencies NR_CPUS cpu_online topology_core_id rdmsrl_on_cpu kmalloc_ok fr
    <> Fault ScratchOutOfBounds /\
  update_cpu_freq_data NR_CPUS cpu_online topology_core_id kmalloc_ok fr buf
    <> Fault ScratchOutOfBounds /\
  (length fr = NR_CPUS ->
   exists fr',
     read_cpu_frequencies NR_CPUS cpu_online topology_core_id rdmsrl_on_cpu true fr = Ok fr').
Proof.
  intros Hin. split; [|split].
  - now apply read_cpu_frequencies_no_scratch_fault.
  - now apply update_cpu_freq_data_no_scratch_fault.
  - intros Hlen. now apply read_cpu_frequencies_total.
Qed.

Lemma scratch_accesses_in_bounds_witness :
  core_ids_in_range 4 all_cpus smt2_core_id /\
  read_cpu_frequencies 4 all_cpus smt2_core_id (msr_ratio 25) true snapshot_store
    <> Fault ScratchOutOfBounds /\
  update_cpu_freq_data 4 all_cpus smt2_core_id true snapshot_store cpu_freq_data_init
    <> Fault ScratchOutOfBounds.
Proof.
  assert (core_ids_in_range 4 all_cpus smt2_core_id) as Hin.
  { intros cpu Hc _.
    destruct cpu as [|[|[|[|cpu]]]]; [vm_compute; lia .. | lia]. }
  split; [exact Hin|].
  destruct (scratch_accesses_in_bounds 4 all_cpus smt2_core_id (msr_ratio 25) true
              snapshot_store cpu_freq_data_init Hin) as (H1 & H2 & _).
  split; [exact H1 | exact H2].
Defined.

(** C9. Read before the first refresh.  With the report buffer still in its
    initial state, a read returns 0, delivers no byte and leaves the cursor
    where it was, for every requested count, every cursor position a file
    can have (non-negative), and whatever the copy to the caller would do. *)
Theorem proc_read_before_refresh (copy_to_user : Z -> Z) (count ppos : Z) :
  (0 <= ppos)%Z ->
  proc_read copy_to_user count ppos cpu_freq_data_init
    = Ok {| ret := 0; new_pos := ppos; delivered := [] |}.
Proof.
  intros Hpos. unfold proc_read.
  change (strlen cpu_freq_data_init) with (@Ok nat 0). cbn [bind].
  unfold simple_read_from_buffer. change (Z.of_nat 0) with 0%Z.
  destruct (ppos <? 0)%Z eqn:Eneg; [lia|].
  destruct (ppos >=? 0)%Z eqn:Ege; [reflexivity | lia].
Qed.

Lemma proc_read_before_refresh_witness :
  (0 <= 0)%Z /\
  proc_read (fun _ => 0%Z) 4096 0 cpu_freq_data_init
    = Ok {| ret := 0; new_pos := 0; delivered := [] |}.
Proof.
  split; [lia|].
  exact (proc_read_before_refresh (fun _ => 0%Z) 4096 0 (Z.le_refl 0)).
Defined.

(** C5, with the capacity of the buffer made explicit. Snapshot formatter.  On a machine with an online CPU and
    every core id below [NR_CPUS], whenever the lines and their terminating
    NUL fit in the 4096-byte report buffer, the formatter runs to its end and
    a reader of the buffer sees exactly one line
    "CPU <id> Frequency: <cur_freq> MHz, Max: <max> MHz, Min: <min> MHz"
    plus a newline per representative CPU, in ascending CPU order, and
    nothing else, whatever the buffer held before.  Representatives 0 and 2
    with records (2500, 3400, 1200) and (1800, 1800, 1800) give exactly the
    two lines shown. *)
Theorem formatter_lines
    (NR_CPUS : nat) (cpu_online : nat -> bool) (topology_core_id : nat -> Z)
    (fr : list cpu_freq_info) (buf : list ascii) :
  core_ids_in_range NR_CPUS cpu_online topology_core_id ->
  length fr = NR_CPUS ->
  (exists cpu, cpu < NR_CPUS /\ cpu_online cpu = true) ->
  length buf = CPU_FREQ_DATA_SIZE ->
  String.length (report_lines fr (first_threads NR_CPUS cpu_online topology_core_id))
    < CPU_FREQ_DATA_SIZE ->
  formatter_correct NR_CPUS cpu_online topology_core_id fr buf /\
  StronglySorted lt (first_threads NR_CPUS cpu_online topology_core_id) /\
  (forall cpu, In cpu (first_threads NR_CPUS cpu_online topology_core_id) <->
     lowest_online_of_core NR_CPUS cpu_online topology_core_id cpu
       (core_id_of topology_core_id cpu)) /\
  (data <- update_cpu_freq_data 4 all_cpus smt2_core_id true snapshot_store
             cpu_freq_data_init ;;
   published data)
  = Ok ("CPU 0 Frequency: 2500 MHz, Max: 3400 MHz, Min: 1200 MHz" ++ newline ++
        "CPU 2 Frequency: 1800 MHz, Max: 1800 MHz, Min: 1800 MHz" ++ newline)%string.
Proof.
  intros Hin Hlen Hon Hbuf Hfit. split; [|split; [|split]].
  - unfold formatter_correct.
    rewrite update_cpu_freq_data_run by assumption.
    destruct (decide _) as [_|Hn]; [|lia].
    eexists. split; [reflexivity|].
    apply published_write_text, no_nul_report_lines.
  - apply first_threads_sorted.
  - intros cpu. apply first_threads_lowest.
  - vm_compute. reflexivity.
Qed.

Lemma formatter_lines_witness :
  core_ids_in_range 4 all_cpus smt2_core_id /\
  String.length (report_lines snapshot_store (first_threads 4 all_cpus smt2_core_id))
    < CPU_FREQ_DATA_SIZE /\
  formatter_correct 4 all_cpus smt2_core_id snapshot_store cpu_freq_data_init.
Proof.
  assert (core_ids_in_range 4 all_cpus smt2_core_id) as Hin.
  { intros cpu Hc _.
    destruct cpu as [|[|[|[|cpu]]]]; [vm_compute; lia .. | lia]. }
  assert (String.length (report_lines snapshot_store (first_threads 4 all_cpus smt2_core_id))
            < CPU_FREQ_DATA_SIZE) as Hfit.
  { apply Nat.ltb_lt. vm_compute. reflexivity. }
  split; [exact Hin|]. split; [exact Hfit|].
  exact (proj1 (formatter_lines 4 all_cpus smt2_core_id snapshot_store cpu_freq_data_init
                  Hin eq_refl (ex_intro _ 0 (conj (Nat.lt_0_succ 3) eq_refl))
                  eq_refl Hfit)).
Defined.

(** C5 as the specification words it, for every representative set and
    store, fails: with 96 cores of one thread each, the 96 lines take 5462
    bytes, and the pass does not leave them in the 4096-byte buffer. *)
Lemma formatter_lines_do_not_fit :
  Z.of_nat (String.length
    (report_lines (replicate 96 (mk_cpu_freq_info 2500 3400 1200))
       (first_threads 96 all_cpus own_core_id))) = 5462%Z /\
  ~ formatter_correct 96 all_cpus own_core_id
      (replicate 96 (mk_cpu_freq_info 2500 3400 1200)) cpu_freq_data_init.
Proof.
  split; [vm_compute; reflexivity|].
  assert (update_cpu_freq_data 96 all_cpus own_core_id true
            (replicate 96 (mk_cpu_freq_info 2500 3400 1200)) cpu_freq_data_init
          = Fault BufferOverrun) as Hrun by (vm_compute; reflexivity).
  intros (data & Hok & _). rewrite Hrun in Hok. discriminate Hok.
Qed.

(** C7. Report buffer overflow.  With 128 online cores of one thread each
    the lines take 7314 bytes; [update_cpu_freq_data] neither truncates nor
    reports anything: its [sprintf] stores past the end of the 4096-byte
    buffer. *)
Theorem formatter_overruns_report_buffer :
  Z.of_nat (String.length
    (report_lines (replicate 128 (mk_cpu_freq_info 2500 3400 1200))
       (first_threads 128 all_cpus own_core_id))) = 7314%Z /\
  Z.of_nat (length cpu_freq_data_init) = 4096%Z /\
  update_cpu_freq_data 128 all_cpus own_core_id true
    (replicate 128 (mk_cpu_freq_info 2500 3400 1200)) cpu_freq_data_init
  = Fault BufferOverrun.
Proof.
  split; [vm_compute; reflexivity|]. split; vm_compute; reflexivity.
Qed.

(** C6. Start-up state of the store.  [my_module_init] clears [min] only:
    with records left over in the allocator's memory, the store before the
    first refresh has non-zero [cur_freq] and [max], and the first report
    carries the left-over [max]. *)
Theorem store_not_zeroed_at_start :
  alloc_cpu_freqs 2 all_cpus (Some stale_heap)
    = Ok (Some [mk_cpu_freq_info 3735928559 4294967295 0; mk_cpu_freq_info 1 2 0]) /\
  exists st,
    my_module_init 2 all_cpus own_core_id (msr_ratio 25) all_cpus (Some stale_heap)
      true true true = Ok (Loaded st) /\
    cpu_freqs st = [mk_cpu_freq_info 2500 4294967295 2500;
                    mk_cpu_freq_info 2500 2500 2500] /\
    published (cpu_freq_data st)
    = Ok ("CPU 0 Frequency: 2500 MHz, Max: 4294967295 MHz, Min: 2500 MHz" ++ newline ++
          "CPU 1 Frequency: 2500 MHz, Max: 2500 MHz, Min: 2500 MHz" ++ newline)%string.
Proof.
  split; [reflexivity|].
  eexists. split; [vm_compute; reflexivity|].
  split; vm_compute; reflexivity.
Qed.

(** ** Further properties of the code *)

(** *** The derivation and the update rule *)

(** The derived frequency, for any register value. *)
Lemma freq_of_msr_range (msr_value : Z) :
  (0 <= freq_of_msr msr_value <= 25500)%Z /\
  (freq_of_msr msr_value mod 100 = 0)%Z /\
  freq_of_msr msr_value = (bits_8_15 (msr_value mod 2 ^ 64) * 100)%Z.
Proof.
  assert (0 <= bits_8_15 (msr_value mod 2 ^ 64) < 256)%Z as Hb.
  { unfold bits_8_15. change (2 ^ 8)%Z with 256%Z. apply Z.mod_pos_bound. lia. }
  assert (freq_of_msr msr_value = (bits_8_15 (msr_value mod 2 ^ 64) * 100)%Z) as Hf.
  { unfold freq_of_msr, U64_MOD, UINT_MOD.
    assert (0 <= msr_value mod 2 ^ 64)%Z by (apply Z.mod_pos_bound; lia).
    rewrite Z.shiftr_div_pow2 by lia.
    change 255%Z with (Z.ones 8). rewrite Z.land_ones by lia.
    fold (bits_8_15 (msr_value mod 2 ^ 64)).
    rewrite (Z.mod_small (bits_8_15 _)) by lia.
    apply Z.mod_small. lia. }
  rewrite Hf. split; [lia|]. split; [|reflexivity].
  apply Z.mod_mul. lia.
Qed.

(** X1. Whatever the register holds, the derived frequency is a multiple of
    100 between 0 and 25500 MHz: the 8-bit field times 100 never wraps the
    [unsigned int] it is stored in. *)
Theorem freq_of_msr_bounds (msr_value : Z) :
  (0 <= freq_of_msr msr_value <= 25500)%Z /\
  (freq_of_msr msr_value mod 100 = 0)%Z /\
  freq_of_msr msr_value = (bits_8_15 (msr_value mod 2 ^ 64) * 100)%Z.
Proof. exact (freq_of_msr_range msr_value). Qed.

(** Running the update rule over a list of samples. *)
Lemma fold_update_slot_snoc (l : list Z) (x : Z) (r0 : cpu_freq_info) :
  fold_left update_slot (l ++ [x]) r0 = update_slot (fold_left update_slot l r0) x.
Proof. now rewrite fold_left_app. Qed.

Lemma fold_update_slot_tracks (l : list Z) : forall (x : Z) (r0 : cpu_freq_info),
  min r0 = 0%Z -> (forall y, In y (l ++ [x]) -> (0 < y)%Z) ->
  let r := fold_left update_slot (l ++ [x]) r0 in
  (0 < min r)%Z /\ In (min r) (l ++ [x]) /\
  (forall y, In y (l ++ [x]) -> (min r <= y <= max r)%Z) /\
  (max r0 <= max r)%Z /\ (max r = max r0 \/ In (max r) (l ++ [x])).
Proof.
  induction l as [|z l IH] using rev_ind; intros x r0 H0 Hpos.
  - cbn [app fold_left].
    destruct (update_slot_fields r0 x) as (_ & Hmax & Hmin).
    rewrite H0 in Hmin. cbn in Hmin.
    assert (0 < x)%Z as Hx by (apply Hpos; now left).
    cbv zeta. rewrite Hmin, Hmax. repeat split.
    + assumption.
    + now left.
    + destruct H as [<-|[]]. lia.
    + destruct H as [<-|[]]. lia.
    + lia.
    + destruct (Z.max_spec (max r0) x) as [[_ ->]|[_ ->]]; [right; now left | now left].
  - cbv zeta. rewrite fold_update_slot_snoc.
    specialize (IH z r0 H0).
    assert (forall y, In y (l ++ [z]) -> (0 < y)%Z) as Hpos'.
    { intros y Hy. apply Hpos. apply in_or_app. now left. }
    specialize (IH Hpos'). cbv zeta in IH.
    set (r := fold_left update_slot (l ++ [z]) r0) in *.
    destruct IH as (Hmpos & Hmin_in & Hall & Hmax0 & Hmax_in).
    destruct (update_slot_fields r x) as (_ & Hmax & Hmin).
    assert (0 < x)%Z as Hx by (apply Hpos; apply in_or_app; right; now left).
    assert ((min r =? 0)%Z = false) as E0 by (apply Z.eqb_neq; lia).
    rewrite E0 in Hmin. cbn [orb] in Hmin.
    rewrite Hmax, Hmin.
    destruct (x <? min r)%Z eqn:Elt.
    + apply Z.ltb_lt in Elt. repeat split.
      * assumption.
      * apply in_or_app. right. now left.
      * apply in_app_or in H as [Hy|[<-|[]]]; [|lia]. specialize (Hall y Hy). lia.
      * apply in_app_or in H as [Hy|[<-|[]]]; [|lia]. specialize (Hall y Hy). lia.
      * lia.
      * destruct (Z.max_spec (max r) x) as [[_ ->]|[_ ->]].
        -- right. apply in_or_app. right. now left.
        -- destruct Hmax_in as [->|Hin]; [now left|]. right. apply in_or_app. now left.
    + apply Z.ltb_ge in Elt. repeat split.
      * assumption.
      * apply in_or_app. now left.
      * apply in_app_or in H as [Hy|[<-|[]]]; [|lia]. specialize (Hall y Hy). lia.
      * apply in_app_or in H as [Hy|[<-|[]]]; [|lia]. specialize (Hall y Hy). lia.
      * lia.
      * destruct (Z.max_spec (max r) x) as [[_ ->]|[_ ->]].
        -- right. apply in_or_app. right. now left.
        -- destruct Hmax_in as [->|Hin]; [now left|]. right. apply in_or_app. now left.
Qed.

(** X2. Running minimum and maximum.  Starting from a slot whose [min] is
    the 0 sentinel and feeding it non-zero samples, [cur_freq] is the last
    sample, [min] is the smallest sample, and [max] is the largest of the
    samples and the [max] the slot started with. *)
Theorem running_min_max (r0 : cpu_freq_info) (samples : list Z) (last_sample : Z) :
  min r0 = 0%Z ->
  (forall y, In y (samples ++ [last_sample]) -> (0 < y)%Z) ->
  cur_freq (fold_left update_slot (samples ++ [last_sample]) r0) = last_sample /\
  In (min (fold_left update_slot (samples ++ [last_sample]) r0)) (samples ++ [last_sample]) /\
  (forall y, In y (samples ++ [last_sample]) ->
     (min (fold_left update_slot (samples ++ [last_sample]) r0) <= y
      <= max (fold_left update_slot (samples ++ [last_sample]) r0))%Z) /\
  (max r0 <= max (fold_left update_slot (samples ++ [last_sample]) r0))%Z /\
  (max (fold_left update_slot (samples ++ [last_sample]) r0) = max r0 \/
   In (max (fold_left update_slot (samples ++ [last_sample]) r0)) (samples ++ [last_sample])).
Proof.
  intros H0 Hpos.
  destruct (fold_update_slot_tracks samples last_sample r0 H0 Hpos) as (_ & H1 & H2 & H3 & H4).
  split; [|auto].
  rewrite fold_update_slot_snoc.
  now destruct (update_slot_fields (fold_left update_slot samples r0) last_sample) as [-> _].
Qed.

Lemma running_min_max_witness :
  (forall y, In y ([1200; 3400] ++ [2000])%Z -> (0 < y)%Z) /\
  cur_freq (fold_left update_slot ([1200; 3400] ++ [2000])%Z zero_slot) = 2000%Z /\
  In (min (fold_left update_slot ([1200; 3400] ++ [2000])%Z zero_slot))
     ([1200; 3400] ++ [2000])%Z.
Proof.
  assert (forall y, In y ([1200; 3400] ++ [2000])%Z -> (0 < y)%Z) as Hpos.
  { intros y [<-|[<-|[<-|[]]]]; reflexivity. }
  split; [exact Hpos|].
  destruct (running_min_max zero_slot [1200; 3400]%Z 2000%Z eq_refl Hpos) as (H1 & H2 & _).
  split; [exact H1 | exact H2].
Defined.

(** X3. A zero sample resets the minimum.  A sample of 0 (register field
    0) puts the 0 sentinel back into [min], so the next sample becomes the
    minimum whatever was observed before. *)
Theorem zero_sample_resets_min (r : cpu_freq_info) (freq : Z) :
  (0 <= min r)%Z ->
  min (update_slot r 0) = 0%Z /\
  min (update_slot (update_slot r 0) freq) = freq /\
  freq_of_msr 0 = 0%Z.
Proof.
  intros Hmin.
  destruct (update_slot_fields r 0) as (_ & _ & H1).
  assert (min (update_slot r 0) = 0%Z) as E.
  { rewrite H1. destruct (min r =? 0)%Z eqn:E0; cbn [orb]; [reflexivity|].
    destruct (0 <? min r)%Z eqn:E1; [reflexivity|].
    apply Z.eqb_neq in E0. apply Z.ltb_ge in E1. lia. }
  split; [exact E|]. split; [|reflexivity].
  destruct (update_slot_fields (update_slot r 0) freq) as (_ & _ & H2).
  rewrite H2, E. reflexivity.
Qed.

Lemma zero_sample_resets_min_witness :
  (0 <= min (mk_cpu_freq_info 2500 3400 1200))%Z /\
  min (update_slot (update_slot (mk_cpu_freq_info 2500 3400 1200) 0) 3400) = 3400%Z.
Proof.
  assert (0 <= min (mk_cpu_freq_info 2500 3400 1200))%Z as H by (cbn; lia).
  split; [exact H|].
  exact (proj1 (proj2 (zero_sample_resets_min (mk_cpu_freq_info 2500 3400 1200) 3400 H))).
Defined.

(** *** The sampler *)

(** A fault of a loop comes from one of its iterations, on a state the
    loop's invariant holds of. *)
Lemma for_each_fault_inv {S : Type} (P : S -> Prop) (f : nat -> S -> result S)
    (l : list nat) :
  (forall x s s', In x l -> P s -> f x s = Ok s' -> P s') ->
  forall s e, P s -> for_each f l s = Fault e ->
  exists x s0, In x l /\ P s0 /\ f x s0 = Fault e.
Proof.
  induction l as [|x l IH]; intros Hinv s e Hs H; simpl in H; [discriminate|].
  destruct (f x s) as [s1|e1] eqn:E; simpl in H.
  - destruct (IH (fun y a b Hy => Hinv y a b (or_intror Hy)) s1 e) as (y & s0 & Hy & Hs0 & Hf).
    + eapply Hinv; [now left | exact Hs | exact E].
    + exact H.
    + exists y, s0. split; [now right | auto].
  - injection H as <-. exists x, s. split; [now left | auto].
Qed.

Lemma for_each_ok_inv {S : Type} (P : S -> Prop) (f : nat -> S -> result S)
    (l : list nat) :
  (forall x s s', In x l -> P s -> f x s = Ok s' -> P s') ->
  forall s s', P s -> for_each f l s = Ok s' -> P s'.
Proof.
  induction l as [|x l IH]; intros Hinv s s' Hs H; simpl in H.
  - now injection H as <-.
  - destruct (f x s) as [s1|e1] eqn:E; simpl in H; [|discriminate].
    apply (IH (fun y a b Hy => Hinv y a b (or_intror Hy)) s1 s'); [|exact H].
    eapply Hinv; [now left | exact Hs | exact E].
Qed.

Lemma sample_cpu_length (NR_CPUS : nat) (topology_core_id rdmsrl_on_cpu : nat -> Z)
    (x : nat) (s s' : list nat * list cpu_freq_info) :
  sample_cpu NR_CPUS topology_core_id rdmsrl_on_cpu x s = Ok s' ->
  length (snd s') = length (snd s).
Proof.
  destruct s as [t fr]. unfold sample_cpu.
  destruct (mark_first_thread NR_CPUS topology_core_id t x) as [[t' b]|e]; simpl; [|discriminate].
  destruct b; simpl.
  - unfold store_get. destruct (fr !! x); simpl; [|discriminate].
    intros [= <-]. simpl. apply length_insert.
  - now intros [= <-].
Qed.

Lemma sample_cpu_fault (NR_CPUS : nat) (topology_core_id rdmsrl_on_cpu : nat -> Z)
    (x : nat) (s : list nat * list cpu_freq_info) (e : fault) :
  x < length (snd s) ->
  sample_cpu NR_CPUS topology_core_id rdmsrl_on_cpu x s = Fault e ->
  e = ScratchOutOfBounds.
Proof.
  destruct s as [t fr]. simpl. intros Hx. unfold sample_cpu.
  destruct (mark_first_thread NR_CPUS topology_core_id t x) as [[t' b]|e'] eqn:Em; simpl.
  - destruct b; simpl; [|discriminate].
    unfold store_get. destruct (lookup_lt_is_Some_2 fr x Hx) as [r ->]. discriminate.
  - intros [= <-]. eapply mark_first_thread_fault. exact Em.
Qed.

(** X4. When the sampler completes.  On a store of [NR_CPUS] records, with
    its scratch array allocated, [read_cpu_frequencies] runs to its end
    exactly when every online CPU has a core id below [NR_CPUS]; when it
    does not, what stops it is an access outside the scratch array. *)
Theorem sampler_completes_iff_in_range
    (NR_CPUS : nat) (cpu_online : nat -> bool) (topology_core_id rdmsrl_on_cpu : nat -> Z)
    (fr : list cpu_freq_info) :
  length fr = NR_CPUS ->
  ((exists fr',
      read_cpu_frequencies NR_CPUS cpu_online topology_core_id rdmsrl_on_cpu true fr = Ok fr')
   <-> core_ids_in_range NR_CPUS cpu_online topology_core_id) /\
  (forall e,
     read_cpu_frequencies NR_CPUS cpu_online topology_core_id rdmsrl_on_cpu true fr = Fault e ->
     e = ScratchOutOfBounds).
Proof.
  intros Hlen. split.
  - split.
    + intros [fr' Hrun]. now apply read_cpu_frequencies_ok in Hrun.
    + intros Hin. now apply read_cpu_frequencies_total.
  - intros e. unfold read_cpu_frequencies, sampler_loop. simpl.
    destruct (for_each _ _ _) as [s|e'] eqn:Hrun; simpl; [discriminate|].
    intros [= <-].
    apply (for_each_fault_inv (fun s => length (snd s) = NR_CPUS)) in Hrun
      as (x & s0 & Hx & Hs0 & Hf).
    + apply sample_cpu_fault in Hf; [assumption|].
      apply online_cpus_In in Hx. lia.
    + intros x s s' _ Hs Hok. apply sample_cpu_length in Hok. lia.
    + assumption.
Qed.

Lemma sampler_completes_iff_in_range_witness :
  length (replicate 4 zero_slot) = 4 /\
  forall e,
    read_cpu_frequencies 4 all_cpus sparse_core_id (msr_ratio 25) true (replicate 4 zero_slot)
    = Fault e -> e = ScratchOutOfBounds.
Proof.
  split; [reflexivity|].
  exact (proj2 (sampler_completes_iff_in_range 4 all_cpus sparse_core_id (msr_ratio 25)
                  (replicate 4 zero_slot) eq_refl)).
Defined.

(** X5. Every online core is sampled, on its lowest CPU.  After a pass that
    ran to its end with the scratch array allocated, each online CPU has a
    representative on its core, not above it, and the representative's
    record is the old record put through the update rule with the
    frequency derived from that CPU's register. *)
Theorem sampler_updates_each_online_core
    (NR_CPUS : nat) (cpu_online : nat -> bool) (topology_core_id rdmsrl_on_cpu : nat -> Z)
    (fr fr' : list cpu_freq_info) (cpu : nat) :
  read_cpu_frequencies NR_CPUS cpu_online topology_core_id rdmsrl_on_cpu true fr = Ok fr' ->
  cpu < NR_CPUS -> cpu_online cpu = true ->
  exists rep,
    rep <= cpu /\
    lowest_online_of_core NR_CPUS cpu_online topology_core_id rep
      (core_id_of topology_core_id cpu) /\
    fr' !! rep = (fun r => update_slot r (freq_of_msr (rdmsrl_on_cpu rep))) <$> fr !! rep.
Proof.
  intros Hrun Hc Ho.
  apply read_cpu_frequencies_ok in Hrun as (_ & _ & _ & Hupd).
  destruct (first_of_core topology_core_id (online_cpus NR_CPUS cpu_online)
              (core_id_of topology_core_id cpu)) as [rep|] eqn:E.
  - apply first_of_core_online in E as Hl.
    exists rep. split; [|split; [exact Hl|]].
    + destruct Hl as (_ & _ & _ & Hmin).
      destruct (decide (rep <= cpu)) as [|Hgt]; [assumption|].
      exfalso. apply (Hmin cpu); [lia | assumption | reflexivity].
    + apply Hupd; [apply Hl|].
      apply (is_first_thread_lowest NR_CPUS); [apply Hl|].
      destruct Hl as (H1 & H2 & H3 & H4). rewrite H3. repeat split; assumption.
  - exfalso. rewrite first_of_core_online_None in E. exact (E cpu Hc Ho eq_refl).
Qed.

Lemma sampler_updates_each_online_core_witness :
  read_cpu_frequencies 4 all_cpus smt2_core_id (msr_ratio 25) true snapshot_store
    = Ok [mk_cpu_freq_info 2500 3400 1200; zero_slot;
          mk_cpu_freq_info 2500 2500 1800; zero_slot] /\
  exists rep,
    rep <= 3 /\
    lowest_online_of_core 4 all_cpus smt2_core_id rep (core_id_of smt2_core_id 3) /\
    [mk_cpu_freq_info 2500 3400 1200; zero_slot;
     mk_cpu_freq_info 2500 2500 1800; zero_slot] !! rep
    = (fun r => update_slot r (freq_of_msr (msr_ratio 25 rep))) <$> snapshot_store !! rep.
Proof.
  split; [reflexivity|].
  exact (sampler_updates_each_online_core 4 all_cpus smt2_core_id (msr_ratio 25)
           snapshot_store _ 3 eq_refl (Nat.lt_succ_diag_r 3) eq_refl).
Defined.

(** X6. Sibling threads are not sampled twice.  Of two distinct CPUs with
    the same core id, at most one has its record written by a pass. *)
Theorem sampler_one_write_per_core
    (NR_CPUS : nat) (cpu_online : nat -> bool) (topology_core_id rdmsrl_on_cpu : nat -> Z)
    (kmalloc_ok : bool) (fr fr' : list cpu_freq_info) (a b : nat) :
  read_cpu_frequencies NR_CPUS cpu_online topology_core_id rdmsrl_on_cpu kmalloc_ok fr = Ok fr' ->
  a <> b -> core_id_of topology_core_id a = core_id_of topology_core_id b ->
  fr' !! a = fr !! a \/ fr' !! b = fr !! b.
Proof.
  intros Hrun Hab Hcore. destruct kmalloc_ok.
  - apply read_cpu_frequencies_ok in Hrun as (_ & _ & Hout & _).
    destruct (decide (a < NR_CPUS /\ is_first_thread cpu_online topology_core_id a = true))
      as [[Ha Hfa]|Hna]; [|left; now apply Hout].
    right. apply Hout. intros [Hb Hfb].
    apply (is_first_thread_lowest NR_CPUS) in Hfa; [|assumption].
    apply (is_first_thread_lowest NR_CPUS) in Hfb; [|assumption].
    destruct Hfa as (_ & Hoa & _ & Hmina). destruct Hfb as (_ & Hob & _ & Hminb).
    destruct (Nat.lt_total a b) as [Hlt|[Heq|Hgt]].
    + exact (Hminb a Hlt Hoa Hcore).
    + contradiction.
    + exact (Hmina b Hgt Hob (eq_sym Hcore)).
  - simpl in Hrun. injection Hrun as <-. now left.
Qed.

Lemma sampler_one_write_per_core_witness :
  read_cpu_frequencies 4 all_cpus smt2_core_id (msr_ratio 25) true snapshot_store
    = Ok [mk_cpu_freq_info 2500 3400 1200; zero_slot;
          mk_cpu_freq_info 2500 2500 1800; zero_slot] /\
  2 <> 3 /\ core_id_of smt2_core_id 2 = core_id_of smt2_core_id 3 /\
  ([mk_cpu_freq_info 2500 3400 1200; zero_slot;
    mk_cpu_freq_info 2500 2500 1800; zero_slot] !! 2 = snapshot_store !! 2 \/
   [mk_cpu_freq_info 2500 3400 1200; zero_slot;
    mk_cpu_freq_info 2500 2500 1800; zero_slot] !! 3 = snapshot_store !! 3).
Proof.
  assert (2 <> 3) as Hne by discriminate.
  split; [reflexivity|]. split; [exact Hne|]. split; [reflexivity|].
  exact (sampler_one_write_per_core 4 all_cpus smt2_core_id (msr_ratio 25) true
           snapshot_store _ 2 3 eq_refl Hne eq_refl).
Defined.

(** X7. What a pass can do to a record.  A pass never changes the number
    of records; in every record [max] does not decrease, a non-zero [min]
    does not increase, and when the record changed at all its [cur_freq] is
    a derived frequency, at most 25500. *)
Theorem sampler_monotone
    (NR_CPUS : nat) (cpu_online : nat -> bool) (topology_core_id rdmsrl_on_cpu : nat -> Z)
    (kmalloc_ok : bool) (fr fr' : list cpu_freq_info) (cpu : nat) (r r' : cpu_freq_info) :
  read_cpu_frequencies NR_CPUS cpu_online topology_core_id rdmsrl_on_cpu kmalloc_ok fr = Ok fr' ->
  fr !! cpu = Some r -> fr' !! cpu = Some r' ->
  length fr' = length fr /\
  (max r <= max r')%Z /\
  (min r <> 0%Z -> (min r' <= min r)%Z) /\
  (r' = r \/ (0 <= cur_freq r' <= 25500)%Z).
Proof.
  intros Hrun Hr Hr'. destruct kmalloc_ok.
  - apply read_cpu_frequencies_ok in Hrun as (_ & Hlen & Hout & Hupd).
    split; [assumption|].
    destruct (decide (cpu < NR_CPUS /\ is_first_thread cpu_online topology_core_id cpu = true))
      as [[Hc Hf]|Hn].
    + rewrite (Hupd cpu Hc Hf), Hr in Hr'. simpl in Hr'. injection Hr' as <-.
      destruct (update_slot_fields r (freq_of_msr (rdmsrl_on_cpu cpu))) as (Hcur & Hmax & Hmin).
      rewrite Hcur, Hmax, Hmin. split; [lia|]. split.
      * intros H0. apply Z.eqb_neq in H0. rewrite H0. cbn [orb].
        destruct (_ <? _)%Z eqn:E; [apply Z.ltb_lt in E|]; lia.
      * right. apply freq_of_msr_range.
    + rewrite (Hout cpu Hn), Hr in Hr'. injection Hr' as <-.
      split; [lia|]. split; [lia | now left].
  - simpl in Hrun. injection Hrun as <-. rewrite Hr in Hr'. injection Hr' as <-.
    split; [reflexivity|]. split; [lia|]. split; [lia | now left].
Qed.

Lemma sampler_monotone_witness :
  read_cpu_frequencies 4 all_cpus smt2_core_id (msr_ratio 25) true snapshot_store
    = Ok [mk_cpu_freq_info 2500 3400 1200; zero_slot;
          mk_cpu_freq_info 2500 2500 1800; zero_slot] /\
  (1800 <= 2500)%Z /\ (1800%Z <> 0%Z -> (1800 <= 1800)%Z).
Proof.
  split; [reflexivity|].
  destruct (sampler_monotone 4 all_cpus smt2_core_id (msr_ratio 25) true snapshot_store
              [mk_cpu_freq_info 2500 3400 1200; zero_slot;
               mk_cpu_freq_info 2500 2500 1800; zero_slot]
              2 (mk_cpu_freq_info 1800 1800 1800) (mk_cpu_freq_info 2500 2500 1800)
              eq_refl eq_refl eq_refl) as (_ & H1 & H2 & _).
  split; [exact H1 | exact H2].
Defined.

(** *** The formatter *)

Lemma sprintf_length (buf : list ascii) (ptr : nat) (s : string) (w : list ascii * nat) :
  sprintf buf ptr s = Ok w -> length (fst w) = length buf /\ snd w = String.length s.
Proof.
  unfold sprintf. destruct (decide _) as [Hfit|]; [|discriminate].
  intros [= <-]. simpl. split; [|reflexivity].
  rewrite !length_app, length_take, length_drop. simpl.
  rewrite length_app in Hfit. simpl in Hfit. lia.
Qed.

Lemma format_cpu_length (NR_CPUS : nat) (topology_core_id : nat -> Z)
    (fr : list cpu_freq_info) (x : nat) (s s' : list nat * (list ascii * nat)) :
  format_cpu NR_CPUS topology_core_id fr x s = Ok s' ->
  length (fst (snd s')) = length (fst (snd s)).
Proof.
  destruct s as [t [buf ptr]]. unfold format_cpu.
  destruct (mark_first_thread NR_CPUS topology_core_id t x) as [[t' b]|e]; simpl; [|discriminate].
  destruct b; simpl.
  - unfold store_get. destruct (fr !! x) as [r|]; simpl; [|discriminate].
    destruct (sprintf buf ptr (format_line x r)) as [[buf' len]|e] eqn:E; simpl; [|discriminate].
    intros [= <-]. simpl. now apply sprintf_length in E as [? _].
  - now intros [= <-].
Qed.

Lemma format_cpu_fault (NR_CPUS : nat) (topology_core_id : nat -> Z)
    (fr : list cpu_freq_info) (x : nat) (s : list nat * (list ascii * nat)) (e : fault) :
  x < length fr ->
  format_cpu NR_CPUS topology_core_id fr x s = Fault e ->
  e = ScratchOutOfBounds \/ e = BufferOverrun.
Proof.
  destruct s as [t [buf ptr]]. intros Hx. unfold format_cpu.
  destruct (mark_first_thread NR_CPUS topology_core_id t x) as [[t' b]|e'] eqn:Em; simpl.
  - destruct b; simpl; [|discriminate].
    unfold store_get. destruct (lookup_lt_is_Some_2 fr x Hx) as [r ->]. simpl.
    unfold sprintf. destruct (decide _); simpl; [discriminate|].
    intros [= <-]. now right.
  - intros [= <-]. left. eapply mark_first_thread_fault. exact Em.
Qed.

(** X8. What a completed formatter pass means.  On a machine with an
    online CPU and a store of [NR_CPUS] records, whenever
    [update_cpu_freq_data] runs to its end with its scratch array allocated,
    every online core id was below [NR_CPUS], the lines and their NUL fitted
    in the buffer, and a reader sees exactly the lines of the
    representatives. *)
Theorem formatter_completed_pass
    (NR_CPUS : nat) (cpu_online : nat -> bool) (topology_core_id : nat -> Z)
    (fr : list cpu_freq_info) (buf data : list ascii) :
  update_cpu_freq_data NR_CPUS cpu_online topology_core_id true fr buf = Ok data ->
  length fr = NR_CPUS ->
  (exists cpu, cpu < NR_CPUS /\ cpu_online cpu = true) ->
  core_ids_in_range NR_CPUS cpu_online topology_core_id /\
  String.length (report_lines fr (first_threads NR_CPUS cpu_online topology_core_id))
    < length buf /\
  published data = Ok (report_lines fr (first_threads NR_CPUS cpu_online topology_core_id)).
Proof.
  intros Hrun Hlen Hon.
  assert (core_ids_in_range NR_CPUS cpu_online topology_core_id) as Hin.
  { unfold update_cpu_freq_data, formatter_loop in Hrun. simpl in Hrun.
    rewrite (for_each_ext _ _ _ _ (format_cpu_guarded NR_CPUS topology_core_id fr)) in Hrun.
    destruct (for_each _ _ _) as [r|e] eqn:E; simpl in Hrun; [|discriminate].
    now apply guarded_loop_ok in E. }
  split; [assumption|].
  rewrite update_cpu_freq_data_run in Hrun by assumption.
  destruct (decide _) as [Hfit|]; [|discriminate].
  injection Hrun as <-. split; [lia|].
  apply published_write_text, no_nul_report_lines.
Qed.

Lemma formatter_completed_pass_witness :
  length snapshot_store = 4 /\
  (exists cpu, cpu < 4 /\ all_cpus cpu = true) /\
  core_ids_in_range 4 all_cpus smt2_core_id /\
  published (write_text cpu_freq_data_init 0
               (report_lines snapshot_store (first_threads 4 all_cpus smt2_core_id)))
  = Ok (report_lines snapshot_store (first_threads 4 all_cpus smt2_core_id)).
Proof.
  assert (exists cpu, cpu < 4 /\ all_cpus cpu = true) as Hon.
  { exists 0. split; [apply Nat.lt_0_succ | reflexivity]. }
  split; [reflexivity|]. split; [exact Hon|].
  destruct (formatter_completed_pass 4 all_cpus smt2_core_id snapshot_store
              cpu_freq_data_init
              (write_text cpu_freq_data_init 0
                 (report_lines snapshot_store (first_threads 4 all_cpus smt2_core_id)))
              eq_refl eq_refl Hon) as (H1 & _ & H3).
  split; [exact H1 | exact H3].
Defined.

(** X9. The formatter overwrites in place and clears nothing.  A completed
    pass keeps the size of the buffer, ends the new text with a NUL, and
    leaves every byte after that NUL as it was: the tail of a longer, older
    report stays in memory behind the terminator. *)
Theorem formatter_keeps_tail
    (NR_CPUS : nat) (cpu_online : nat -> bool) (topology_core_id : nat -> Z)
    (fr : list cpu_freq_info) (buf data : list ascii) :
  update_cpu_freq_data NR_CPUS cpu_online topology_core_id true fr buf = Ok data ->
  length fr = NR_CPUS ->
  (exists cpu, cpu < NR_CPUS /\ cpu_online cpu = true) ->
  length data = length buf /\
  data !! String.length (report_lines fr (first_threads NR_CPUS cpu_online topology_core_id))
    = Some NUL /\
  (forall i,
     String.length (report_lines fr (first_threads NR_CPUS cpu_online topology_core_id)) < i ->
     data !! i = buf !! i).
Proof.
  intros Hrun Hlen Hon.
  assert (core_ids_in_range NR_CPUS cpu_online topology_core_id) as Hin.
  { unfold update_cpu_freq_data, formatter_loop in Hrun. simpl in Hrun.
    rewrite (for_each_ext _ _ _ _ (format_cpu_guarded NR_CPUS topology_core_id fr)) in Hrun.
    destruct (for_each _ _ _) as [r|e] eqn:E; simpl in Hrun; [|discriminate].
    now apply guarded_loop_ok in E. }
  rewrite update_cpu_freq_data_run in Hrun by assumption.
  destruct (decide _) as [Hfit|]; [|discriminate].
  injection Hrun as <-.
  set (text := report_lines fr (first_threads NR_CPUS cpu_online topology_core_id)) in *.
  split; [apply write_text_length; lia|].
  unfold write_text. rewrite take_0. cbn [app].
  assert (length (list_ascii_of_string text) = String.length text) as Hl
    by apply list_ascii_of_string_length.
  split.
  - rewrite lookup_app_r by lia. rewrite Hl, Nat.sub_diag. reflexivity.
  - intros i Hi. rewrite lookup_app_r by lia. rewrite Hl.
    rewrite lookup_cons_ne_0 by lia. rewrite lookup_drop. f_equal. lia.
Qed.

Lemma formatter_keeps_tail_witness :
  length snapshot_store = 4 /\
  length (write_text cpu_freq_data_init 0
            (report_lines snapshot_store (first_threads 4 all_cpus smt2_core_id)))
  = length cpu_freq_data_init.
Proof.
  split; [reflexivity|].
  exact (proj1 (formatter_keeps_tail 4 all_cpus smt2_core_id snapshot_store
                  cpu_freq_data_init _ eq_refl eq_refl
                  (ex_intro _ 0 (conj (Nat.lt_0_succ 3) eq_refl)))).
Defined.

(** X10. How the formatter can fail.  On a store of [NR_CPUS] records a
    pass can only stop on an access outside the scratch array or on a
    [sprintf] past the end of the buffer; and on a machine with an online
    CPU and every core id below [NR_CPUS] it overruns the buffer exactly
    when the lines do not leave room for their NUL. *)
Theorem formatter_failures
    (NR_CPUS : nat) (cpu_online : nat -> bool) (topology_core_id : nat -> Z)
    (fr : list cpu_freq_info) (buf : list ascii) :
  length fr = NR_CPUS ->
  (forall e,
     update_cpu_freq_data NR_CPUS cpu_online topology_core_id true fr buf = Fault e ->
     e = ScratchOutOfBounds \/ e = BufferOverrun) /\
  (core_ids_in_range NR_CPUS cpu_online topology_core_id ->
   (exists cpu, cpu < NR_CPUS /\ cpu_online cpu = true) ->
   (update_cpu_freq_data NR_CPUS cpu_online topology_core_id true fr buf = Fault BufferOverrun
    <-> length buf
        <= String.length (report_lines fr (first_threads NR_CPUS cpu_online topology_core_id)))).
Proof.
  intros Hlen. split.
  - intros e. unfold update_cpu_freq_data, formatter_loop. simpl.
    destruct (for_each _ _ _) as [s|e'] eqn:Hrun; simpl; [discriminate|].
    intros [= <-].
    apply (for_each_fault_inv (fun _ => True)) in Hrun as (x & s0 & Hx & _ & Hf); auto.
    apply format_cpu_fault in Hf; [assumption|].
    apply online_cpus_In in Hx. lia.
  - intros Hin Hon. rewrite update_cpu_freq_data_run by assumption.
    destruct (decide _) as [Hfit|Hfit]; split; intros H; try discriminate; try lia.
    reflexivity.
Qed.

Lemma formatter_failures_witness :
  length (replicate 96 (mk_cpu_freq_info 2500 3400 1200)) = 96 /\
  forall e,
    update_cpu_freq_data 96 all_cpus own_core_id true
      (replicate 96 (mk_cpu_freq_info 2500 3400 1200)) cpu_freq_data_init = Fault e ->
    e = ScratchOutOfBounds \/ e = BufferOverrun.
Proof.
  split; [reflexivity|].
  exact (proj1 (formatter_failures 96 all_cpus own_core_id
                  (replicate 96 (mk_cpu_freq_info 2500 3400 1200)) cpu_freq_data_init
                  eq_refl)).
Defined.

(** *** No CPU online *)

Lemma online_cpus_none (NR_CPUS : nat) (cpu_online : nat -> bool) :
  (forall cpu, cpu < NR_CPUS -> cpu_online cpu = false) ->
  online_cpus NR_CPUS cpu_online = [].
Proof.
  intros Hoff. destruct (online_cpus NR_CPUS cpu_online) as [|x l] eqn:E; [reflexivity|].
  assert (In x (online_cpus NR_CPUS cpu_online)) as Hx by (rewrite E; now left).
  apply online_cpus_In in Hx as [Hlt Ho]. rewrite (Hoff x Hlt) in Ho. discriminate.
Qed.

(** X11. With no CPU in the online mask both passes do nothing: the store
    is unchanged, and the buffer is not even emptied, so readers keep
    seeing the report of the last pass that found a CPU. *)
Theorem no_online_cpu_no_change
    (NR_CPUS : nat) (cpu_online : nat -> bool) (topology_core_id rdmsrl_on_cpu : nat -> Z)
    (kmalloc_ok : bool) (fr : list cpu_freq_info) (buf : list ascii) :
  (forall cpu, cpu < NR_CPUS -> cpu_online cpu = false) ->
  read_cpu_frequencies NR_CPUS cpu_online topology_core_id rdmsrl_on_cpu kmalloc_ok fr = Ok fr /\
  update_cpu_freq_data NR_CPUS cpu_online topology_core_id kmalloc_ok fr buf = Ok buf.
Proof.
  intros Hoff. apply online_cpus_none in Hoff.
  unfold read_cpu_frequencies, update_cpu_freq_data, sampler_loop, formatter_loop.
  rewrite Hoff. destruct kmalloc_ok; split; reflexivity.
Qed.

Lemma no_online_cpu_no_change_witness :
  (forall cpu, cpu < 4 -> (fun _ : nat => false) cpu = false) /\
  update_cpu_freq_data 4 (fun _ => false) smt2_core_id true snapshot_store
    (write_text cpu_freq_data_init 0 "stale")
  = Ok (write_text cpu_freq_data_init 0 "stale").
Proof.
  assert (forall cpu, cpu < 4 -> (fun _ : nat => false) cpu = false) as H by reflexivity.
  split; [exact H|].
  exact (proj2 (no_online_cpu_no_change 4 (fun _ => false) smt2_core_id (msr_ratio 25) true
                  snapshot_store (write_text cpu_freq_data_init 0 "stale") H)).
Defined.

(** *** The module state across start-up and refreshes *)

Lemma read_cpu_frequencies_length
    (NR_CPUS : nat) (cpu_online : nat -> bool) (topology_core_id rdmsrl_on_cpu : nat -> Z)
    (kmalloc_ok : bool) (fr fr' : list cpu_freq_info) :
  read_cpu_frequencies NR_CPUS cpu_online topology_core_id rdmsrl_on_cpu kmalloc_ok fr = Ok fr' ->
  length fr' = length fr.
Proof.
  unfold read_cpu_frequencies, sampler_loop. destruct kmalloc_ok; simpl.
  - destruct (for_each _ _ _) as [s|e] eqn:Hrun; simpl; [|discriminate].
    intros [= <-].
    apply (for_each_ok_inv (fun s => length (snd s) = length fr)) in Hrun; [assumption| |reflexivity].
    intros x a b _ Ha Hok. apply sample_cpu_length in Hok. lia.
  - now intros [= <-].
Qed.

Lemma update_cpu_freq_data_length
    (NR_CPUS : nat) (cpu_online : nat -> bool) (topology_core_id : nat -> Z)
    (kmalloc_ok : bool) (fr : list cpu_freq_info) (buf data : list ascii) :
  update_cpu_freq_data NR_CPUS cpu_online topology_core_id kmalloc_ok fr buf = Ok data ->
  length data = length buf.
Proof.
  unfold update_cpu_freq_data, formatter_loop. destruct kmalloc_ok; simpl.
  - destruct (for_each _ _ _) as [s|e] eqn:Hrun; simpl; [|discriminate].
    intros [= <-].
    apply (for_each_ok_inv (fun s => length (fst (snd s)) = length buf)) in Hrun;
      [assumption| |reflexivity].
    intros x a b _ Ha Hok. apply format_cpu_length in Hok. lia.
  - now intros [= <-].
Qed.

Lemma timer_callback_sizes_aux
    (NR_CPUS : nat) (cpu_online : nat -> bool) (topology_core_id rdmsrl_on_cpu : nat -> Z)
    (kmalloc_ok1 kmalloc_ok2 : bool) (st st' : module_state) :
  my_timer_callback NR_CPUS cpu_online topology_core_id rdmsrl_on_cpu
    kmalloc_ok1 kmalloc_ok2 st = Ok st' ->
  length (cpu_freqs st') = length (cpu_freqs st) /\
  length (cpu_freq_data st') = length (cpu_freq_data st).
Proof.
  unfold my_timer_callback. intros Hrun.
  destruct (read_cpu_frequencies _ _ _ _ _ _) as [fr'|e] eqn:Hr; simpl in Hrun; [|discriminate].
  destruct (update_cpu_freq_data _ _ _ _ _ _) as [data|e] eqn:Hu; simpl in Hrun; [|discriminate].
  injection Hrun as <-. simpl.
  apply read_cpu_frequencies_length in Hr. apply update_cpu_freq_data_length in Hu.
  split; assumption.
Qed.

(** X12. The globals keep their sizes.  Whatever the allocations do and
    whatever the machine looks like, a timer callback that runs to its end
    leaves a store with as many records and a buffer with as many bytes as
    it found. *)
Theorem timer_callback_keeps_sizes
    (NR_CPUS : nat) (cpu_online : nat -> bool) (topology_core_id rdmsrl_on_cpu : nat -> Z)
    (kmalloc_ok1 kmalloc_ok2 : bool) (st st' : module_state) :
  my_timer_callback NR_CPUS cpu_online topology_core_id rdmsrl_on_cpu
    kmalloc_ok1 kmalloc_ok2 st = Ok st' ->
  length (cpu_freqs st') = length (cpu_freqs st) /\
  length (cpu_freq_data st') = length (cpu_freq_data st) /\
  (module_state_wf NR_CPUS st -> module_state_wf NR_CPUS st').
Proof.
  intros Hrun. apply timer_callback_sizes_aux in Hrun as [H1 H2].
  split; [assumption|]. split; [assumption|].
  unfold module_state_wf. intros [H3 H4]. split; congruence.
Qed.

Lemma timer_callback_keeps_sizes_witness :
  exists st',
    my_timer_callback 4 all_cpus smt2_core_id (msr_ratio 25) true true
      {| cpu_freqs := snapshot_store; cpu_freq_data := cpu_freq_data_init |} = Ok st' /\
    length (cpu_freqs st') = length snapshot_store.
Proof.
  eexists. split; [vm_compute; reflexivity|].
  refine (proj1 (timer_callback_keeps_sizes 4 all_cpus smt2_core_id (msr_ratio 25) true true
                   {| cpu_freqs := snapshot_store; cpu_freq_data := cpu_freq_data_init |}
                   _ _)).
  vm_compute. reflexivity.
Defined.

(** X13. Outcomes of [my_module_init].  When the allocator hands out
    [NR_CPUS] records or nothing, an initialisation that runs to its end
    either fails with [-ENOMEM], and then the store allocation or the proc
    entry creation had failed, or loads the module, and then both had
    succeeded and the store and the buffer have their full sizes. *)
Theorem module_init_outcomes
    (NR_CPUS : nat) (cpu_online : nat -> bool) (topology_core_id rdmsrl_on_cpu : nat -> Z)
    (cpu_possible : nat -> bool) (heap : option (list cpu_freq_info))
    (proc_create_ok kmalloc_ok1 kmalloc_ok2 : bool) (out : init_outcome) :
  (forall h, heap = Some h -> length h = NR_CPUS) ->
  my_module_init NR_CPUS cpu_online topology_core_id rdmsrl_on_cpu cpu_possible heap
    proc_create_ok kmalloc_ok1 kmalloc_ok2 = Ok out ->
  match out with
  | InitFailed err => err = (- ENOMEM)%Z /\ (heap = None \/ proc_create_ok = false)
  | Loaded st => module_state_wf NR_CPUS st /\ heap <> None /\ proc_create_ok = true
  end.
Proof.
  intros Hheap. unfold my_module_init.
  destruct heap as [h|].
  - destruct (alloc_cpu_freqs_fields NR_CPUS cpu_possible h (Hheap h eq_refl))
      as (fr & -> & Hlen & _).
    cbn [bind]. destruct proc_create_ok; cbn [negb].
    + destruct (my_timer_callback _ _ _ _ _ _ _) as [st|e] eqn:Hcb; cbn [bind]; [|discriminate].
      intros [= <-].
      split; [|split; [discriminate | reflexivity]].
      destruct (timer_callback_sizes_aux NR_CPUS cpu_online topology_core_id rdmsrl_on_cpu
                  kmalloc_ok1 kmalloc_ok2 _ st Hcb) as [H1 H2].
      cbn [cpu_freqs cpu_freq_data] in H1, H2. split; [congruence|].
      rewrite H2. unfold cpu_freq_data_init. apply length_replicate.
    + intros [= <-]. split; [reflexivity | now right].
  - cbn. intros [= <-]. split; [reflexivity | now left].
Qed.

Lemma module_init_outcomes_witness :
  (forall h, Some stale_heap = Some h -> length h = 2) /\
  exists st,
    my_module_init 2 all_cpus own_core_id (msr_ratio 25) all_cpus (Some stale_heap)
      true true true = Ok (Loaded st) /\
    module_state_wf 2 st.
Proof.
  assert (forall h, Some stale_heap = Some h -> length h = 2) as Hh.
  { intros h [= <-]. reflexivity. }
  split; [exact Hh|].
  eexists. split; [vm_compute; reflexivity|].
  refine (proj1 (module_init_outcomes 2 all_cpus own_core_id (msr_ratio 25) all_cpus
                   (Some stale_heap) true true true (Loaded _) Hh _)).
  vm_compute. reflexivity.
Defined.

Lemma update_cpu_freq_data_ok
    (NR_CPUS : nat) (cpu_online : nat -> bool) (topology_core_id : nat -> Z)
    (fr : list cpu_freq_info) (buf data : list ascii) :
  update_cpu_freq_data NR_CPUS cpu_online topology_core_id true fr buf = Ok data ->
  length fr = NR_CPUS ->
  (exists cpu, cpu < NR_CPUS /\ cpu_online cpu = true) ->
  data = write_text buf 0
           (report_lines fr (first_threads NR_CPUS cpu_online topology_core_id)).
Proof.
  intros Hrun Hlen Hon.
  assert (core_ids_in_range NR_CPUS cpu_online topology_core_id) as Hin.
  { unfold update_cpu_freq_data, formatter_loop in Hrun. simpl in Hrun.
    rewrite (for_each_ext _ _ _ _ (format_cpu_guarded NR_CPUS topology_core_id fr)) in Hrun.
    destruct (for_each _ _ _) as [r|e] eqn:E; simpl in Hrun; [|discriminate].
    now apply guarded_loop_ok in E. }
  rewrite update_cpu_freq_data_run in Hrun by assumption.
  destruct (decide _) as [Hfit|]; [|discriminate].
  now injection Hrun as <-.
Qed.

(** X14. A refresh publishes what it has just sampled.  After a timer
    callback that ran to its end with both scratch arrays allocated, on a
    machine with an online CPU and a store of [NR_CPUS] records, the text a
    reader sees is the lines of the new store for the representatives, and
    the record behind each line is the old record updated with the
    frequency derived from that CPU's register in this very cycle. *)
Theorem refresh_publishes_fresh_samples
    (NR_CPUS : nat) (cpu_online : nat -> bool) (topology_core_id rdmsrl_on_cpu : nat -> Z)
    (st st' : module_state) :
  my_timer_callback NR_CPUS cpu_online topology_core_id rdmsrl_on_cpu true true st = Ok st' ->
  length (cpu_freqs st) = NR_CPUS ->
  (exists cpu, cpu < NR_CPUS /\ cpu_online cpu = true) ->
  published (cpu_freq_data st')
    = Ok (report_lines (cpu_freqs st') (first_threads NR_CPUS cpu_online topology_core_id)) /\
  (forall rep, In rep (first_threads NR_CPUS cpu_online topology_core_id) ->
     exists r0, cpu_freqs st !! rep = Some r0 /\
       cpu_freqs st' !! rep = Some (update_slot r0 (freq_of_msr (rdmsrl_on_cpu rep)))).
Proof.
  unfold my_timer_callback. intros Hrun Hlen Hon.
  destruct (read_cpu_frequencies _ _ _ _ _ _) as [fr'|e] eqn:Hr; cbn [bind] in Hrun; [|discriminate].
  destruct (update_cpu_freq_data _ _ _ _ _ _) as [data|e] eqn:Hu; cbn [bind] in Hrun; [|discriminate].
  injection Hrun as <-. cbn [cpu_freqs cpu_freq_data].
  apply read_cpu_frequencies_ok in Hr as (_ & Hlen' & _ & Hupd).
  split.
  - apply update_cpu_freq_data_ok in Hu; [|lia|assumption].
    rewrite Hu. apply published_write_text, no_nul_report_lines.
  - intros rep Hrep. apply first_threads_In in Hrep as [Hc Hf].
    destruct (lookup_lt_is_Some_2 (cpu_freqs st) rep ltac:(lia)) as [r0 Er0].
    exists r0. split; [assumption|]. rewrite (Hupd rep Hc Hf), Er0. reflexivity.
Qed.

Lemma refresh_publishes_fresh_samples_witness :
  exists st',
    my_timer_callback 4 all_cpus smt2_core_id (msr_ratio 25) true true
      {| cpu_freqs := snapshot_store; cpu_freq_data := cpu_freq_data_init |} = Ok st' /\
    published (cpu_freq_data st')
      = Ok (report_lines (cpu_freqs st') (first_threads 4 all_cpus smt2_core_id)).
Proof.
  eexists. split; [vm_compute; reflexivity|].
  refine (proj1 (refresh_publishes_fresh_samples 4 all_cpus smt2_core_id (msr_ratio 25)
                   {| cpu_freqs := snapshot_store; cpu_freq_data := cpu_freq_data_init |}
                   _ _ eq_refl (ex_intro _ 0 (conj (Nat.lt_0_succ 3) eq_refl)))).
  vm_compute. reflexivity.
Defined.

(** X15. The store at start-up, for any allocator content.  After the
    allocation and the loop over the possible CPUs, every record has the
    [cur_freq] and the [max] the allocator handed out; [min] is 0 for the
    possible CPUs and as handed out for the others. *)
Theorem store_at_start
    (NR_CPUS : nat) (cpu_possible : nat -> bool) (heap : list cpu_freq_info) :
  length heap = NR_CPUS ->
  exists fr,
    alloc_cpu_freqs NR_CPUS cpu_possible (Some heap) = Ok (Some fr) /\
    length fr = NR_CPUS /\
    forall cpu r, heap !! cpu = Some r ->
      exists r', fr !! cpu = Some r' /\
        cur_freq r' = cur_freq r /\ max r' = max r /\
        min r' = (if cpu_possible cpu then 0%Z else min r).
Proof.
  intros Hlen.
  destruct (alloc_cpu_freqs_fields NR_CPUS cpu_possible heap Hlen) as (fr & Hrun & Hl & Hf).
  exists fr. split; [assumption|]. split; [assumption|].
  intros cpu r Hr. rewrite (Hf cpu r Hr).
  eexists. split; [reflexivity|].
  destruct (cpu_possible cpu); repeat split; reflexivity.
Qed.

Lemma store_at_start_witness :
  length stale_heap = 2 /\
  exists fr,
    alloc_cpu_freqs 2 (fun cpu => cpu =? 0) (Some stale_heap) = Ok (Some fr) /\
    length fr = 2.
Proof.
  split; [reflexivity|].
  destruct (store_at_start 2 (fun cpu => cpu =? 0) stale_heap eq_refl) as (fr & H1 & H2 & _).
  exists fr. split; [exact H1 | exact H2].
Defined.

(** *** The read endpoint *)

(** One read whose bytes all reach the caller. *)
Lemma proc_read_at (buf : list ascii) (n : nat) (count pos : Z) :
  strlen buf = Ok n -> (0 <= pos <= Z.of_nat n)%Z -> (0 <= count)%Z ->
  proc_read (fun _ => 0%Z) count pos buf
  = Ok {| ret := Z.min count (Z.of_nat n - pos);
          new_pos := (pos + Z.min count (Z.of_nat n - pos))%Z;
          delivered := take (Z.to_nat (Z.min count (Z.of_nat n - pos)))
                         (drop (Z.to_nat pos) buf) |}.
Proof.
  intros Hlen Hpos Hcount. unfold proc_read. rewrite Hlen. cbn [bind].
  unfold simple_read_from_buffer.
  destruct (pos <? 0)%Z eqn:E0; [lia|].
  destruct (pos >=? Z.of_nat n)%Z eqn:E1; cbn [orb].
  - replace (Z.min count (Z.of_nat n - pos)) with 0%Z by lia.
    rewrite Z.add_0_r. reflexivity.
  - destruct (count =? 0)%Z eqn:E2.
    + replace (Z.min count (Z.of_nat n - pos)) with 0%Z by lia.
      rewrite Z.add_0_r. reflexivity.
    + assert ((if (count >? Z.of_nat n - pos)%Z then (Z.of_nat n - pos)%Z else count)
              = Z.min count (Z.of_nat n - pos)) as ->
        by (destruct (count >? Z.of_nat n - pos)%Z eqn:E3; lia).
      destruct (0 =? Z.min count (Z.of_nat n - pos))%Z eqn:E4; [lia|].
      rewrite Z.sub_0_r. reflexivity.
Qed.

(** X16. Reading the report in two chunks.  With the kernel helper
    [simple_read_from_buffer] behaving as modelled and every byte reaching
    the caller, a read of [k] bytes at offset 0 followed by a read at the
    cursor it left delivers, put together, exactly the bytes before the
    first NUL of the buffer, the text [published] speaks of; a further read
    at the end returns 0. *)
Theorem proc_read_in_chunks (buf : list ascii) (n k : nat) (count : Z) :
  strlen buf = Ok n -> k <= n -> (Z.of_nat (n - k) <= count)%Z ->
  exists chunk1 chunk2,
    proc_read (fun _ => 0%Z) (Z.of_nat k) 0 buf
      = Ok {| ret := Z.of_nat k; new_pos := Z.of_nat k; delivered := chunk1 |} /\
    proc_read (fun _ => 0%Z) count (Z.of_nat k) buf
      = Ok {| ret := Z.of_nat (n - k); new_pos := Z.of_nat n; delivered := chunk2 |} /\
    proc_read (fun _ => 0%Z) count (Z.of_nat n) buf
      = Ok {| ret := 0; new_pos := Z.of_nat n; delivered := [] |} /\
    published buf = Ok (string_of_list_ascii (chunk1 ++ chunk2)).
Proof.
  intros Hlen Hk Hcount.
  exists (take k buf), (take (n - k) (drop k buf)).
  split; [|split; [|split]].
  - rewrite (proc_read_at buf n) by (assumption || lia).
    replace (Z.min (Z.of_nat k) (Z.of_nat n - 0)) with (Z.of_nat k) by lia.
    rewrite Z.add_0_l, Nat2Z.id. reflexivity.
  - rewrite (proc_read_at buf n) by (assumption || lia).
    replace (Z.min count (Z.of_nat n - Z.of_nat k)) with (Z.of_nat (n - k)) by lia.
    rewrite !Nat2Z.id. do 2 f_equal. lia.
  - rewrite (proc_read_at buf n) by (assumption || lia).
    replace (Z.min count (Z.of_nat n - Z.of_nat n)) with 0%Z by lia.
    rewrite Z.add_0_r. reflexivity.
  - unfold published. rewrite Hlen. cbn [bind].
    rewrite take_take_drop. do 3 f_equal. lia.
Qed.

Lemma proc_read_in_chunks_witness :
  strlen (write_text cpu_freq_data_init 0 "CPU 0") = Ok 5 /\
  exists chunk1 chunk2,
    proc_read (fun _ => 0%Z) 2 0 (write_text cpu_freq_data_init 0 "CPU 0")
      = Ok {| ret := 2; new_pos := 2; delivered := chunk1 |} /\
    proc_read (fun _ => 0%Z) 4096 2 (write_text cpu_freq_data_init 0 "CPU 0")
      = Ok {| ret := 3; new_pos := 5; delivered := chunk2 |} /\
    published (write_text cpu_freq_data_init 0 "CPU 0")
      = Ok (string_of_list_ascii (chunk1 ++ chunk2)).
Proof.
  split; [reflexivity|].
  destruct (proc_read_in_chunks (write_text cpu_freq_data_init 0 "CPU 0") 5 2 4096
              eq_refl ltac:(lia) ltac:(cbn; lia)) as (c1 & c2 & H1 & H2 & _ & H4).
  exists c1, c2. split; [exact H1|]. split; [exact H2 | exact H4].
Defined.

(** *** How many lines the buffer holds *)

Lemma string_of_uint_length (d : uint) :
  String.length (NilEmpty.string_of_uint d) = nb_digits d.
Proof. induction d; simpl; congruence. Qed.

Lemma usize_nb_digits (d : uint) : DecimalPos.Unsigned.usize d = N.of_nat (nb_digits d).
Proof.
  induction d; cbn [DecimalPos.Unsigned.usize nb_digits];
    rewrite ?IHd, ?Nat2N.inj_succ; reflexivity.
Qed.

(** A numeral with a non-zero leading digit and [n] more digits is at least
    [10 ^ n]. *)
Lemma of_uint_head_lower (d d1 : uint) :
  (d = D1 d1 \/ d = D2 d1 \/ d = D3 d1 \/ d = D4 d1 \/ d = D5 d1 \/
   d = D6 d1 \/ d = D7 d1 \/ d = D8 d1 \/ d = D9 d1) ->
  (10 ^ N.of_nat (nb_digits d1) <= Pos.of_uint d)%N.
Proof.
  intros H. rewrite DecimalPos.Unsigned.of_uint_alt. rewrite <- usize_nb_digits.
  repeat (destruct H as [->|H]); try subst d;
    unfold Decimal.rev; cbn [revapp]; rewrite DecimalPos.Unsigned.of_lu_revapp;
    cbn [DecimalPos.Unsigned.of_lu]; lia.
Qed.

Lemma pos_to_uint_digits (p : positive) :
  (N.pos p < 2 ^ 32)%N -> 1 <= nb_digits (Pos.to_uint p) <= 10.
Proof.
  intros Hp.
  pose proof (DecimalPos.Unsigned.of_to p) as Hof.
  pose proof (DecimalPos.Unsigned.to_of (Pos.to_uint p)) as Hto.
  rewrite Hof in Hto. cbn [N.to_uint] in Hto.
  pose proof (DecimalPos.Unsigned.to_uint_nonnil p) as Hnil.
  pose proof (DecimalPos.Unsigned.to_uint_nonzero p) as Hz.
  destruct (Pos.to_uint p) as [|d1|d1|d1|d1|d1|d1|d1|d1|d1|d1] eqn:E; [congruence| |..].
  1:{ exfalso.
    assert (d1 <> Nil) as Hd1 by (intros ->; now apply Hz).
    change (unorm (D0 d1)) with (unorm d1) in Hto.
    pose proof (nb_digits_unorm d1 Hd1) as Hn. rewrite <- Hto in Hn.
    cbn [nb_digits] in Hn. lia. }
  all: cbn [nb_digits]; split; [lia|];
    match goal with
    | |- S (nb_digits ?d1) <= 10 =>
        destruct (Nat.le_gt_cases (nb_digits d1) 9) as [|Hbig]; [lia|]; exfalso;
        assert (10 ^ N.of_nat (nb_digits d1) <= N.pos p)%N as Hlow
          by (rewrite <- Hof; apply of_uint_head_lower; tauto);
        assert (10 ^ 10 <= 10 ^ N.of_nat (nb_digits d1))%N
          by (apply N.pow_le_mono_r; lia);
        assert (2 ^ 32 < 10 ^ 10)%N by reflexivity; lia
    end.
Qed.

(** [%u] prints between 1 and 10 characters. *)
Lemma fmt_u_length (v : Z) : 1 <= String.length (fmt_u v) <= 10.
Proof.
  unfold fmt_u. rewrite string_of_uint_length.
  assert (Z.to_N (v mod UINT_MOD) < 2 ^ 32)%N as Hlt.
  { assert (0 <= v mod UINT_MOD < UINT_MOD)%Z by (apply Z.mod_pos_bound; reflexivity).
    unfold UINT_MOD in *. change (2 ^ 32)%N with (Z.to_N (2 ^ 32)). lia. }
  destruct (Z.to_N (v mod UINT_MOD)) as [|p].
  - cbn. lia.
  - apply pos_to_uint_digits. exact Hlt.
Qed.

Lemma format_line_length (cpu : nat) (r : cpu_freq_info) :
  47 <= String.length (format_line cpu r) <= 83.
Proof.
  unfold format_line. rewrite !string_length_app.
  pose proof (fmt_u_length (Z.of_nat cpu)).
  pose proof (fmt_u_length (cur_freq r)).
  pose proof (fmt_u_length (max r)).
  pose proof (fmt_u_length (min r)).
  cbn [String.length newline]. lia.
Qed.

Lemma report_lines_length (fr : list cpu_freq_info) (cpus : list nat) :
  47 * length cpus <= String.length (report_lines fr cpus) <= 83 * length cpus.
Proof.
  induction cpus as [|x l IH]; cbn [report_lines length]; [cbn; lia|].
  rewrite string_length_app.
  pose proof (format_line_length x (default (mk_cpu_freq_info 0 0 0) (fr !! x))). lia.
Qed.

(** X17. Capacity of the report buffer in cores.  On a machine with every
    core id below [NR_CPUS] and a store of [NR_CPUS] records, whatever the
    records hold: with between 1 and 49 representatives the formatter
    always runs to its end in the 4096-byte buffer, and with 88 or more it
    always stores past the end of it. *)
Theorem formatter_capacity
    (NR_CPUS : nat) (cpu_online : nat -> bool) (topology_core_id : nat -> Z)
    (fr : list cpu_freq_info) (buf : list ascii) :
  core_ids_in_range NR_CPUS cpu_online topology_core_id ->
  length fr = NR_CPUS ->
  (exists cpu, cpu < NR_CPUS /\ cpu_online cpu = true) ->
  length buf = CPU_FREQ_DATA_SIZE ->
  (length (first_threads NR_CPUS cpu_online topology_core_id) <= 49 ->
   formatter_correct NR_CPUS cpu_online topology_core_id fr buf) /\
  (88 <= length (first_threads NR_CPUS cpu_online topology_core_id) ->
   update_cpu_freq_data NR_CPUS cpu_online topology_core_id true fr buf = Fault BufferOverrun).
Proof.
  intros Hin Hlen Hon Hbuf.
  pose proof (report_lines_length fr (first_threads NR_CPUS cpu_online topology_core_id)) as Hl.
  unfold CPU_FREQ_DATA_SIZE in Hbuf.
  split; intros Hn.
  - unfold formatter_correct. rewrite update_cpu_freq_data_run by assumption.
    destruct (decide _) as [_|Hbig]; [|lia].
    eexists. split; [reflexivity|].
    apply published_write_text, no_nul_report_lines.
  - apply update_cpu_freq_data_overrun; try assumption. lia.
Qed.

Lemma formatter_capacity_witness :
  core_ids_in_range 4 all_cpus smt2_core_id /\
  length (first_threads 4 all_cpus smt2_core_id) <= 49 /\
  formatter_correct 4 all_cpus smt2_core_id snapshot_store cpu_freq_data_init.
Proof.
  assert (core_ids_in_range 4 all_cpus smt2_core_id) as Hin.
  { intros cpu Hc _.
    destruct cpu as [|[|[|[|cpu]]]]; [vm_compute; lia .. | lia]. }
  assert (length (first_threads 4 all_cpus smt2_core_id) <= 49) as Hn
    by (apply Nat.leb_le; reflexivity).
  split; [exact Hin|]. split; [exact Hn|].
  exact (proj1 (formatter_capacity 4 all_cpus smt2_core_id snapshot_store cpu_freq_data_init
                  Hin eq_refl (ex_intro _ 0 (conj (Nat.lt_0_succ 3) eq_refl)) eq_refl) Hn).
Defined.

(** *** The slot invariant over the life of the module *)


(** A pass keeps the invariant of every slot. *)
Lemma read_cpu_frequencies_slot_ok
    (NR_CPUS : nat) (cpu_online : nat -> bool) (topology_core_id rdmsrl_on_cpu : nat -> Z)
    (kmalloc_ok : bool) (fr fr' : list cpu_freq_info) (cpu : nat) (r r' : cpu_freq_info) :
  read_cpu_frequencies NR_CPUS cpu_online topology_core_id rdmsrl_on_cpu kmalloc_ok fr = Ok fr' ->
  fr !! cpu = Some r -> fr' !! cpu = Some r' -> slot_ok r -> slot_ok r'.
Proof.
  intros Hrun Hr Hr' Hok. destruct kmalloc_ok.
  - apply read_cpu_frequencies_ok in Hrun as (_ & _ & Hout & Hupd).
    destruct (decide (cpu < NR_CPUS /\ is_first_thread cpu_online topology_core_id cpu = true))
      as [[Hc Hf]|Hn].
    + rewrite (Hupd cpu Hc Hf), Hr in Hr'. simpl in Hr'. injection Hr' as <-.
      intros _. apply update_slot_ordered.
    + rewrite (Hout cpu Hn), Hr in Hr'. now injection Hr' as <-.
  - simpl in Hrun. injection Hrun as <-. rewrite Hr in Hr'. now injection Hr' as <-.
Qed.

(** X19. The slot invariant on the possible CPUs.  When the allocator hands
    out [NR_CPUS] records, whatever they contain, every slot of a possible
    CPU satisfies "[min] non-zero implies [min <= cur_freq <= max]" once
    [my_module_init] has loaded the module, and still does after any timer
    callback that runs to its end, on whatever machine state and with
    whatever allocation outcomes. *)
Theorem slot_invariant_on_possible_cpus
    (NR_CPUS : nat) (cpu_online : nat -> bool) (topology_core_id rdmsrl_on_cpu : nat -> Z)
    (cpu_possible : nat -> bool) (heap : list cpu_freq_info)
    (proc_create_ok kmalloc_ok1 kmalloc_ok2 : bool) (st : module_state)
    (cpu : nat) (r : cpu_freq_info) :
  length heap = NR_CPUS ->
  my_module_init NR_CPUS cpu_online topology_core_id rdmsrl_on_cpu cpu_possible (Some heap)
    proc_create_ok kmalloc_ok1 kmalloc_ok2 = Ok (Loaded st) ->
  cpu_possible cpu = true ->
  cpu_freqs st !! cpu = Some r ->
  slot_ok r /\
  (forall (cpu_online' : nat -> bool) (topology_core_id' rdmsrl_on_cpu' : nat -> Z)
          (k1 k2 : bool) (st' : module_state) (r' : cpu_freq_info),
     my_timer_callback NR_CPUS cpu_online' topology_core_id' rdmsrl_on_cpu' k1 k2 st = Ok st' ->
     cpu_freqs st' !! cpu = Some r' -> slot_ok r').
Proof.
  intros Hlen Hinit Hp Hr.
  assert (slot_ok r) as Hok.
  { unfold my_module_init in Hinit.
    destruct (alloc_cpu_freqs_fields NR_CPUS cpu_possible heap Hlen) as (fr & Halloc & Hl & _).
    rewrite Halloc in Hinit. cbn [bind] in Hinit.
    destruct proc_create_ok; cbn [negb] in Hinit; [|discriminate].
    destruct (my_timer_callback _ _ _ _ _ _ _) as [st0|e] eqn:Hcb; cbn [bind] in Hinit;
      [|discriminate].
    injection Hinit as ->.
    unfold my_timer_callback in Hcb. cbn [cpu_freqs cpu_freq_data] in Hcb.
    destruct (read_cpu_frequencies _ _ _ _ _ _) as [fr'|e] eqn:Hread; cbn [bind] in Hcb;
      [|discriminate].
    destruct (update_cpu_freq_data _ _ _ _ _ _) as [data|e]; cbn [bind] in Hcb; [|discriminate].
    injection Hcb as <-. cbn [cpu_freqs] in Hr.
    assert (cpu < length fr) as Hlt.
    { apply lookup_lt_Some in Hr. apply read_cpu_frequencies_length in Hread. lia. }
    destruct (lookup_lt_is_Some_2 fr cpu Hlt) as [r0 Er0].
    apply (read_cpu_frequencies_slot_ok _ _ _ _ _ _ _ cpu r0 r Hread Er0 Hr).
    exact (alloc_cpu_freqs_slot_ok NR_CPUS cpu_possible heap fr cpu r0 Hlen Halloc Hp Er0). }
  split; [exact Hok|].
  intros cpu_online' topology_core_id' rdmsrl_on_cpu' k1 k2 st' r' Hcb Hr'.
  unfold my_timer_callback in Hcb.
  destruct (read_cpu_frequencies _ _ _ _ _ _) as [fr'|e] eqn:Hread; cbn [bind] in Hcb;
    [|discriminate].
  destruct (update_cpu_freq_data _ _ _ _ _ _) as [data|e]; cbn [bind] in Hcb; [|discriminate].
  injection Hcb as <-. cbn [cpu_freqs] in Hr'.
  exact (read_cpu_frequencies_slot_ok _ _ _ _ _ _ _ cpu r r' Hread Hr Hr' Hok).
Qed.

Lemma slot_invariant_on_possible_cpus_witness :
  length stale_heap = 2 /\
  exists st,
    my_module_init 2 only_cpu0 own_core_id (msr_ratio 25) only_cpu0 (Some stale_heap)
      true true true = Ok (Loaded st) /\
    only_cpu0 0 = true /\
    cpu_freqs st !! 0 = Some (mk_cpu_freq_info 2500 4294967295 2500) /\
    slot_ok (mk_cpu_freq_info 2500 4294967295 2500).
Proof.
  split; [reflexivity|].
  eexists. split; [vm_compute; reflexivity|].
  split; [reflexivity|]. split; [reflexivity|].
  refine (proj1 (slot_invariant_on_possible_cpus 2 only_cpu0 own_core_id (msr_ratio 25)
                   only_cpu0 stale_heap true true true _ 0
                   (mk_cpu_freq_info 2500 4294967295 2500) eq_refl _ eq_refl _)).
  - vm_compute. reflexivity.
  - reflexivity.
Defined.
